(** * CLAHE golden model: fixed-point weights, bilinear blend,
    histogram clipping and CDF normalisation

  Shallow embedding of the numeric core of the Python scripts
  - projects/16tile/scripts/verify_fixed_weights.py
  - projects/16tile/scripts/analyze_remaining_artifacts.py
  - projects/16tile/scripts/debug_interp_weights.py
  - projects/64tile_optimized/scripts/verify_cdf_golden.py

  Python integers are unbounded and modelled in [Z]; [>>] is [Z.shiftr]
  (an arithmetic, flooring shift) and [&] is [Z.land].  NumPy arrays are
  lists, with the wrap-around of their element type written out. *)

From Stdlib Require Import ZArith Lia Bool List Ascii.
From Stdlib Require Import Floats.SpecFloat.
From stdpp Require Import base list gmap.

Local Open Scope Z_scope.

(** ** projects/16tile/scripts/verify_fixed_weights.py *)

Module verify_fixed_weights.

Definition TILE_WIDTH : Z := 320.
Definition TILE_HEIGHT : Z := 180.
Definition TILE_CENTER_X : Z := 160.
Definition TILE_CENTER_Y : Z := 90.

(** [calc_weight_fixed(dx_or_dy, is_x_axis)]: both branches compute
    [mult], shift it right by 10, redo the shift on the magnitude when
    [mult] is negative, and add 128; the result is then saturated. *)
Definition calc_weight_fixed (dx_or_dy : Z) (is_x_axis : bool) : Z :=
  let result :=
    if is_x_axis then
      let mult := dx_or_dy * 819 in
      let offset := Z.shiftr mult 10 in
      let offset := if mult <? 0 then - Z.shiftr (- mult) 10 else offset in
      128 + offset
    else
      let mult := dx_or_dy * 1456 in
      let offset := Z.shiftr mult 10 in
      let offset := if mult <? 0 then - Z.shiftr (- mult) 10 else offset in
      128 + offset in
  if result <? 0 then 0
  else if result >? 255 then 255
  else result.

(** The offsets [analyze_fixed_weights] prints for the seam between
    tile 0 and tile 1: [dx = local_x - TILE_CENTER_X]. *)
Definition boundary_dx (local_x : Z) : Z := local_x - TILE_CENTER_X.

(** The body of the loops of [visualize_fixed_weights] over the pixel
    columns: the tile a column falls in and its weight. *)
Definition wx_of_pixel (px : Z) : Z * Z :=
  let tile_x := px / TILE_WIDTH in
  let local_x := px mod TILE_WIDTH in
  let dx := local_x - TILE_CENTER_X in
  let wx := calc_weight_fixed dx true in
  (tile_x, wx).

(** The same over the pixel rows. *)
Definition wy_of_pixel (py : Z) : Z * Z :=
  let tile_y := py / TILE_HEIGHT in
  let local_y := py mod TILE_HEIGHT in
  let dy := local_y - TILE_CENTER_Y in
  let wy := calc_weight_fixed dy false in
  (tile_y, wy).

End verify_fixed_weights.

(** ** projects/16tile/scripts/analyze_remaining_artifacts.py *)

Module analyze_remaining_artifacts.

(** [calc_current_weight(dx)]: the x-axis formula, saturated with
    [max(0, min(255, result))]. *)
Definition calc_current_weight (dx : Z) : Z :=
  let mult := dx * 819 in
  let offset := Z.shiftr mult 10 in
  let offset := if mult <? 0 then - Z.shiftr (- mult) 10 else offset in
  let result := 128 + offset in
  Z.max 0 (Z.min 255 result).

End analyze_remaining_artifacts.

(** ** projects/16tile/scripts/debug_interp_weights.py *)

Module debug_interp_weights.

(** [calc_weight_verilog(local_coord, is_x_axis)]: the weight taken
    from the local coordinate, masked to eight bits. *)
Definition calc_weight_verilog (local_coord : Z) (is_x_axis : bool) : Z :=
  if is_x_axis then
    let mult := local_coord * 819 in
    Z.land (Z.shiftr mult 10) 255
  else
    let mult := local_coord * 1456 in
    Z.land (Z.shiftr mult 10) 255.

(** The loop body of [test_bilinear_interp]: horizontal blend of the
    top pair and of the bottom pair, then the vertical blend. *)
Definition interp_top (wx cdf_tl cdf_tr : Z) : Z :=
  Z.shiftr ((256 - wx) * cdf_tl + wx * cdf_tr) 8.

Definition interp_bottom (wx cdf_bl cdf_br : Z) : Z :=
  Z.shiftr ((256 - wx) * cdf_bl + wx * cdf_br) 8.

Definition bilinear_result (wx wy cdf_tl cdf_tr cdf_bl cdf_br : Z) : Z :=
  Z.shiftr ((256 - wy) * interp_top wx cdf_tl cdf_tr
            + wy * interp_bottom wx cdf_bl cdf_br) 8.

(** One line of the table [test_bilinear_interp] prints, for the four
    tile values fixed in the script. *)
Definition test_bilinear_interp_at (local_x local_y : Z) : Z :=
  let cdf_tl := 100 in
  let cdf_tr := 150 in
  let cdf_bl := 120 in
  let cdf_br := 180 in
  let wx := calc_weight_verilog local_x true in
  let wy := calc_weight_verilog local_y false in
  bilinear_result wx wy cdf_tl cdf_tr cdf_bl cdf_br.

End debug_interp_weights.

(** ** projects/64tile_optimized/scripts/verify_cdf_golden.py *)

Module verify_cdf_golden.

(** [CLAHEGoldenModel.__init__(bins=256, tile_pixels=14400)], as
    [main] constructs it. *)
Definition bins : nat := 256.
Definition tile_pixels : Z := 14400.

(** *** NumPy element types *)

Definition INT32_MAX : Z := 2 ^ 31 - 1.

(** Two's-complement wrap-around of [np.int32]. *)
Definition wrap32 (z : Z) : Z := (z + 2 ^ 31) mod 2 ^ 32 - 2 ^ 31.

(** [np.copy(histogram).astype(np.int32)], for entries that NumPy holds
    as 64-bit integers: the conversion keeps their low 32 bits.  Larger
    Python integers make NumPy raise [OverflowError]; they are outside
    this model. *)
Definition astype_int32 (a : list Z) : list Z := map wrap32 a.

(** [a[i]] for an index the caller has checked to be in range. *)
Definition getitem (a : list Z) (i : nat) : Z := default 0 (a !! i).

(** [a[i] = v] on an [np.int32] array. *)
Definition setitem32 (a : list Z) (i : nat) (v : Z) : list Z :=
  <[i := wrap32 v]> a.

(** [np.float64]: IEEE 754 binary64, by the specification of the
    operations in [SpecFloat]. *)
Definition f64_prec : Z := 53.
Definition f64_emax : Z := 1024.

Definition f64_of_Z (z : Z) : spec_float :=
  binary_normalize f64_prec f64_emax z 0 false.

Definition f64_mul : spec_float -> spec_float -> spec_float :=
  SFmul f64_prec f64_emax.

Definition f64_div : spec_float -> spec_float -> spec_float :=
  SFdiv f64_prec f64_emax.

(** Truncation toward zero of a finite float. *)
Definition f64_trunc (x : spec_float) : option Z :=
  match x with
  | S754_zero _ => Some 0
  | S754_finite s m e => Some (cond_Zopp s (Z.shiftl (Zpos m) e))
  | S754_infinity _ | S754_nan => None
  end.

(** [.astype(np.uint8)] on a float: the C conversion.  A value whose
    truncation lies in 0..255 converts to it.  Outside that range C
    leaves the result open and NumPy does not clamp: the x86-64 build
    truncates to a 32-bit integer and keeps its low byte (zero when the
    truncation does not fit 32 bits). *)
Definition astype_uint8 (x : spec_float) : Z :=
  match f64_trunc x with
  | Some t => if (- 2 ^ 31 <=? t) && (t <? 2 ^ 31) then t mod 256 else 0
  | None => 0
  end.

(** *** Step 1: contrast limiting

    One iteration of [for i in range(self.bins)]; the state is the
    array and [total_excess].  The scalars taken from the array are
    [np.int32] values, so [total_excess] is accumulated in that type.
    The model is for a clip limit within [np.int32]; a bin can exceed
    no other positive limit, and a limit below that range makes the
    subtraction raise [OverflowError]. *)
Definition clip_step (clip_limit : Z) (st : list Z * Z) (i : nat)
  : list Z * Z :=
  let '(clipped_hist, total_excess) := st in
  if getitem clipped_hist i >? clip_limit then
    let excess := wrap32 (getitem clipped_hist i - clip_limit) in
    let total_excess := wrap32 (total_excess + excess) in
    (setitem32 clipped_hist i clip_limit, total_excess)
  else (clipped_hist, total_excess).

Definition clip_loop (clip_limit : Z) (clipped_hist : list Z)
  : list Z * Z :=
  fold_left (clip_step clip_limit) (seq 0 bins) (clipped_hist, 0).

(** *** Step 2: redistribution of the excess *)
Definition redistribute_step (avg_increment remainder : Z)
    (clipped_hist : list Z) (i : nat) : list Z :=
  let clipped_hist :=
    setitem32 clipped_hist i (getitem clipped_hist i + avg_increment) in
  if Z.of_nat i <? remainder then
    setitem32 clipped_hist i (getitem clipped_hist i + 1)
  else clipped_hist.

Definition redistribute_loop (avg_increment remainder : Z)
    (clipped_hist : list Z) : list Z :=
  fold_left (redistribute_step avg_increment remainder) (seq 0 bins)
            clipped_hist.

(** [total_excess] after step 1. *)
Definition total_excess (histogram : list Z) (clip_limit : Z) : Z :=
  snd (clip_loop clip_limit (astype_int32 histogram)).

(** The array after step 1 only. *)
Definition clipped_only (histogram : list Z) (clip_limit : Z) : list Z :=
  fst (clip_loop clip_limit (astype_int32 histogram)).

Definition avg_increment (histogram : list Z) (clip_limit : Z) : Z :=
  total_excess histogram clip_limit / Z.of_nat bins.

Definition remainder (histogram : list Z) (clip_limit : Z) : Z :=
  total_excess histogram clip_limit mod Z.of_nat bins.

(** [clipped_hist] after steps 1 and 2. *)
Definition clipped_hist (histogram : list Z) (clip_limit : Z) : list Z :=
  redistribute_loop (avg_increment histogram clip_limit)
                    (remainder histogram clip_limit)
                    (clipped_only histogram clip_limit).

(** *** Step 3: [np.cumsum]

    The running sum of an [np.int32] array is accumulated in the
    64-bit platform integer, which 256 such values cannot overflow. *)
Fixpoint cumsum_from (acc : Z) (a : list Z) : list Z :=
  match a with
  | [] => []
  | x :: a' => (acc + x) :: cumsum_from (acc + x) a'
  end.

Definition cumsum (a : list Z) : list Z := cumsum_from 0 a.

(** *** Step 4: normalisation to 0..255 *)

(** [cdf_min = cdf[0]], then the first [cdf[i] > 0] replaces it. *)
Fixpoint find_cdf_min (cdf : list Z) (range : list nat) (cdf_min : Z) : Z :=
  match range with
  | [] => cdf_min
  | i :: range' =>
      if getitem cdf i >? 0 then getitem cdf i
      else find_cdf_min cdf range' cdf_min
  end.

Definition cdf_min (cdf : list Z) : Z :=
  find_cdf_min cdf (seq 0 bins) (getitem cdf 0).

(** [total = cdf[-1]] *)
Definition total (cdf : list Z) : Z := List.last cdf 0.

(** [((cdf - cdf_min) * 255.0 / (total - cdf_min)).astype(np.uint8)]
    at one element. *)
Definition normalize_entry (cdf_min total v : Z) : Z :=
  astype_uint8
    (f64_div (f64_mul (f64_of_Z (v - cdf_min)) (f64_of_Z 255))
             (f64_of_Z (total - cdf_min))).

Definition normalized_cdf (cdf : list Z) : list Z :=
  let cdf_min := cdf_min cdf in
  let total := total cdf in
  if (total =? cdf_min) || (total =? 0) then replicate bins 0
  else map (normalize_entry cdf_min total) cdf.

(** [calculate_cdf(self, histogram, clip_limit)].  A histogram with
    fewer than [bins] entries makes [clipped_hist[i]] raise
    [IndexError]. *)
Definition calculate_cdf (histogram : list Z) (clip_limit : Z)
  : option (list Z) :=
  if (length histogram <? bins)%nat then None
  else Some (normalized_cdf (cumsum (clipped_hist histogram clip_limit))).

(** *** [verify_test] and the verdict of [main] *)

(** One entry of the [mismatches] list. *)
Record mismatch := {
  mm_bin : nat;
  mm_golden : Z;
  mm_actual : Z;
  mm_error : Z
}.

(** The dictionary [verify_test] returns. *)
Record verify_result := {
  total_bins : Z;
  mismatches : nat;
  match_rate : spec_float;
  max_error : Z;
  mismatch_details : list mismatch
}.

(** [actual_output.get(bin_addr, 0)] *)
Definition actual_get (actual_output : gmap Z Z) (bin_addr : nat) : Z :=
  default 0 (actual_output !! Z.of_nat bin_addr).

(** One iteration of [for bin_addr in range(256)]; the state is the
    list [mismatches] and [max_error]. *)
Definition verify_step (golden_cdf : list Z) (actual_output : gmap Z Z)
    (st : list mismatch * Z) (bin_addr : nat) : list mismatch * Z :=
  let '(mismatches, max_error) := st in
  let golden_val := getitem golden_cdf bin_addr in
  let actual_val := actual_get actual_output bin_addr in
  if negb (golden_val =? actual_val) then
    let error := Z.abs (golden_val - actual_val) in
    (mismatches ++ [ {| mm_bin := bin_addr; mm_golden := golden_val;
                        mm_actual := actual_val; mm_error := error |} ],
     Z.max max_error error)
  else (mismatches, max_error).

(** [verify_test(test_id, golden_cdf, actual_output, tile_id)]; the two
    identifiers are not used.  A golden table with fewer than 256
    entries makes [golden_cdf[bin_addr]] raise [IndexError]. *)
Definition verify_test (golden_cdf : list Z) (actual_output : gmap Z Z)
  : option verify_result :=
  if (length golden_cdf <? 256)%nat then None
  else
    let '(mismatches, max_error) :=
      fold_left (verify_step golden_cdf actual_output) (seq 0 256)
                ([], 0) in
    Some {| total_bins := 256;
            mismatches := length mismatches;
            match_rate :=
              f64_mul (f64_div (f64_of_Z (256 - Z.of_nat (length mismatches)))
                               (f64_of_Z 256))
                      (f64_of_Z 100);
            max_error := max_error;
            mismatch_details := take 10 mismatches |}.

(** The status [main] prints for one result. *)
Inductive status := PASS | ACCEPTABLE | FAIL.

Definition judge (result : verify_result) : status :=
  if (mismatches result =? 0)%nat then PASS
  else if max_error result <=? 1 then ACCEPTABLE
  else FAIL.

End verify_cdf_golden.

(** ** The floating-point reference weights

    [calc_ideal_weight] of analyze_remaining_artifacts.py and
    [calc_weight_ideal] of debug_interp_weights.py. *)

Module weight_precision.
Import verify_cdf_golden.

Definition f64_add : spec_float -> spec_float -> spec_float :=
  SFadd f64_prec f64_emax.

(** [int(x)] on a float: truncation toward zero; infinities and NaN
    raise. *)
Definition int_of_f64 (x : spec_float) : option Z := f64_trunc x.

(** [calc_ideal_weight(dx, tile_width=320)]:
    [wx = 128 + (dx * 256.0 / tile_width)], then
    [max(0, min(255, int(wx)))], for integers within the range of a
    float (beyond it Python raises [OverflowError]). *)
Definition calc_ideal_weight (dx tile_width : Z) : option Z :=
  let wx :=
    f64_add (f64_of_Z 128)
            (f64_div (f64_mul (f64_of_Z dx) (f64_of_Z 256))
                     (f64_of_Z tile_width)) in
  match int_of_f64 wx with
  | Some i => Some (Z.max 0 (Z.min 255 i))
  | None => None
  end.

(** [calc_weight_ideal(local_coord, tile_size)]:
    [int((local_coord * 256) / tile_size)], for operands below [2^53]
    in magnitude: there the true division of two integers is the
    division of the floats they convert to (above, Python rounds the
    exact quotient once and the two differ).  A zero [tile_size] raises
    [ZeroDivisionError]. *)
Definition calc_weight_ideal (local_coord tile_size : Z) : option Z :=
  if tile_size =? 0 then None
  else int_of_f64 (f64_div (f64_of_Z (local_coord * 256))
                           (f64_of_Z tile_size)).

End weight_precision.

(** ** projects/16tile/scripts/check_bmp_content.py *)

Module check_bmp_content.

(** The luminance [check_bmp] computes for a pixel:
    [int((19595 * r + 38470 * g + 7471 * b + 32768) >> 16)]. *)
Definition luminance (r g b : Z) : Z :=
  Z.shiftr (19595 * r + 38470 * g + 7471 * b + 32768) 16.

(** [row_size = ((width * bits_per_pixel // 8) + 3) & ~3] *)
Definition row_size (width bits_per_pixel : Z) : Z :=
  Z.land (width * bits_per_pixel / 8 + 3) (Z.lnot 3).

End check_bmp_content.

(** ** projects/16tile/scripts/bmp_to_hex.py *)

Module bmp_to_hex.

(** An uppercase hexadecimal digit. *)
Definition hex_digit (d : Z) : ascii :=
  if d <? 10 then ascii_of_nat (Z.to_nat (48 + d))
  else ascii_of_nat (Z.to_nat (55 + d)).

(** [f"{v:02X}"] for a channel value, which PIL hands out as a byte
    0..255: two digits. *)
Definition format_02X (v : Z) : list ascii :=
  [hex_digit (v / 16); hex_digit (v mod 16)].

(** The line written for one pixel: [f"{b:02X}{g:02X}{r:02X}\n"]. *)
Definition pixel_line (r g b : Z) : list ascii :=
  format_02X b ++ format_02X g ++ format_02X r ++ [ascii_of_nat 10].

End bmp_to_hex.


(** ** Vocabulary of the statements *)

Module Props.
Import verify_cdf_golden.

(** [sum(a)] *)
Definition sumZ (a : list Z) : Z := foldr Z.add 0 a.

(** A tile histogram as [np.int32] counters can hold it: [bins]
    non-negative counts whose total, the tile's pixel count, fits the
    counter type. *)
Definition tile_histogram (H : list Z) : Prop :=
  length H = bins /\ Forall (fun x => 0 <= x) H /\ sumZ H <= INT32_MAX.

(** What is cut off above [clip_limit], summed over the bins. *)
Definition excess_above (clip_limit : Z) (H : list Z) : Z :=
  sumZ (map (fun x => Z.max 0 (x - clip_limit)) H).

(** A histogram that is zero except for [count] at bin [k]. *)
Definition single_bin (k : nat) (count : Z) : list Z :=
  <[k := count]> (replicate bins 0).

(** [table[i] <= table[i+1]] for every adjacent pair. *)
Definition non_decreasing (table : list Z) : Prop :=
  forall (i : nat) (x y : Z),
    table !! i = Some x -> table !! S i = Some y -> x <= y.

(** Saturation of an integer into 0..255. *)
Definition clamp255 (z : Z) : Z := Z.max 0 (Z.min 255 z).

(** Division rounding toward zero by [2^10], the offset the weight
    formula is specified to add to 128. *)
Definition toward_zero_shift10 (product : Z) : Z := Z.quot product 1024.

(** The same as a test that evaluates. *)
Definition tile_histogramb (H : list Z) : bool :=
  (length H =? bins)%nat && forallb (fun x => 0 <=? x) H
  && (sumZ H <=? INT32_MAX).

(** The state of the clipping loop after its first [k] iterations. *)
Definition clip_prefix (clip_limit : Z) (h : list Z) (k : nat)
  : list Z * Z :=
  fold_left (clip_step clip_limit) (seq 0 k) (h, 0).

(** What the first [k] bins hold above [clip_limit]. *)
Definition excess_upto (clip_limit : Z) (h : list Z) (k : nat) : Z :=
  sumZ (map (fun j => Z.max 0 (getitem h j - clip_limit)) (seq 0 k)).

(** The array after the first [k] iterations of the redistribution. *)
Definition redistribute_prefix (avg rem : Z) (a0 : list Z) (k : nat)
  : list Z :=
  fold_left (redistribute_step avg rem) (seq 0 k) a0.

(** The distance between the golden and the actual value of a bin. *)
Definition bin_error (golden_cdf : list Z) (actual_output : gmap Z Z)
    (bin_addr : nat) : Z :=
  Z.abs (getitem golden_cdf bin_addr - actual_get actual_output bin_addr).

(** The bin differs between the golden and the actual table. *)
Definition differs (golden_cdf : list Z) (actual_output : gmap Z Z)
    (bin_addr : nat) : bool :=
  negb (getitem golden_cdf bin_addr =? actual_get actual_output bin_addr).

(** The record [verify_test] files for a differing bin. *)
Definition mismatch_of (golden_cdf : list Z) (actual_output : gmap Z Z)
    (bin_addr : nat) : mismatch :=
  {| mm_bin := bin_addr;
     mm_golden := getitem golden_cdf bin_addr;
     mm_actual := actual_get actual_output bin_addr;
     mm_error := bin_error golden_cdf actual_output bin_addr |}.

(** The state of the loop of [verify_test] after [k] bins. *)
Definition verify_prefix (golden_cdf : list Z) (actual_output : gmap Z Z)
    (k : nat) : list mismatch * Z :=
  fold_left (verify_step golden_cdf actual_output) (seq 0 k) ([], 0).

(** Reading a hexadecimal digit back, as a Verilog [$readmemh] does. *)
Definition hex_value (c : ascii) : Z :=
  let n := Z.of_nat (nat_of_ascii c) in
  if n <? 58 then n - 48 else n - 55.

(** Reading back one line of the hex file: the channels in the order
    red, green, blue. *)
Definition read_pixel_line (line : list ascii) : option (Z * Z * Z) :=
  match line with
  | [b1; b0; g1; g0; r1; r0; nl] =>
      if (nat_of_ascii nl =? 10)%nat then
        Some (16 * hex_value r1 + hex_value r0,
              16 * hex_value g1 + hex_value g0,
              16 * hex_value b1 + hex_value b0)
      else None
  | _ => None
  end.

(** The integers [lo], [lo + 1], ..., [lo + n - 1]. *)
Definition Z_range (lo : Z) (n : nat) : list Z :=
  map (fun i => lo + Z.of_nat i) (seq 0 n).

(** The fixed-point weight is within one unit of the floating-point
    reference, when the reference exists. *)
Definition near_ideal (fixed : Z) (ideal : option Z) : bool :=
  match ideal with
  | Some i => Z.abs (fixed - i) <=? 1
  | None => false
  end.

(** The corner-relative weight is the floating-point reference or one
    unit below it. *)
Definition below_ideal (fixed : Z) (ideal : option Z) : bool :=
  match ideal with
  | Some i => (i - 1 <=? fixed) && (fixed <=? i)
  | None => false
  end.

(** A histogram of non-negative counts whose total does not fit
    [np.int32]: bins 0 and 1 hold the largest [np.int32] value. *)
Definition two_full_bins : list Z :=
  <[0%nat := INT32_MAX]> (<[1%nat := INT32_MAX]> (replicate bins 0)).

(** Entries that NumPy holds as 64-bit integers. *)
Definition int64_entries (H : list Z) : Prop :=
  Forall (fun x => - 2 ^ 63 <= x < 2 ^ 63) H.

(** The multiplier of each axis: 819 for x, 1456 for y. *)
Definition axis_multiplier (is_x_axis : bool) : Z :=
  if is_x_axis then 819 else 1456.

End Props.

(** ** The fixed-point weight function *)

Section Weights.
Import verify_fixed_weights analyze_remaining_artifacts Props.

Lemma shift_toward_zero (mult : Z) :
  (if mult <? 0 then - Z.shiftr (- mult) 10 else Z.shiftr mult 10)
  = toward_zero_shift10 mult.
Proof.
  unfold toward_zero_shift10.
  rewrite !Z.shiftr_div_pow2 by lia.
  change (2 ^ 10) with 1024.
  destruct (Z.ltb_spec mult 0) as [Hneg | Hpos].
  - rewrite <- (Z.opp_involutive mult) at 2.
    rewrite Z.quot_opp_l by lia.
    rewrite Z.quot_div_nonneg by lia. reflexivity.
  - rewrite Z.quot_div_nonneg by lia. reflexivity.
Qed.

Lemma calc_weight_fixed_closed (d : Z) (is_x_axis : bool) :
  calc_weight_fixed d is_x_axis
  = clamp255 (128 + toward_zero_shift10 (d * axis_multiplier is_x_axis)).
Proof.
  unfold calc_weight_fixed, clamp255, axis_multiplier.
  destruct is_x_axis; cbv zeta; rewrite shift_toward_zero;
    repeat match goal with
           | |- context [if ?b then _ else _] =>
               let E := fresh "E" in destruct b eqn:E
           end; lia.
Qed.

Lemma calc_current_weight_fixed (dx : Z) :
  calc_current_weight dx = calc_weight_fixed dx true.
Proof.
  rewrite calc_weight_fixed_closed.
  unfold calc_current_weight, clamp255, axis_multiplier.
  cbv zeta. rewrite shift_toward_zero. reflexivity.
Qed.

Lemma clamp255_mono (a b : Z) : a <= b -> clamp255 a <= clamp255 b.
Proof. unfold clamp255. lia. Qed.

(** C5 (as the code has it): at half the tile dimension the weight is
    255 on the positive side but 1, not 0, on the negative side, on
    both axes; the x-axis copy [calc_current_weight] agrees. *)
Theorem weight_at_max_offset :
  calc_weight_fixed (- (TILE_WIDTH / 2)) true = 1
  /\ calc_weight_fixed (TILE_WIDTH / 2) true = 255
  /\ calc_weight_fixed (- (TILE_HEIGHT / 2)) false = 1
  /\ calc_weight_fixed (TILE_HEIGHT / 2) false = 255
  /\ calc_current_weight (- (TILE_WIDTH / 2)) = 1
  /\ calc_current_weight (TILE_WIDTH / 2) = 255.
Proof. repeat split; reflexivity. Qed.

(** C5 as stated fails: the weight at [-max_offset] is not 0, on the
    x axis (offset -160) and on the y axis (offset -90). *)
Lemma weight_at_max_offset_not_saturated :
  ~ (calc_weight_fixed (- 160) true = 0
     /\ calc_weight_fixed 160 true = 255)
  /\ ~ (calc_weight_fixed (- 90) false = 0
        /\ calc_weight_fixed 90 false = 255).
Proof. split; intros [H _]; vm_compute in H; discriminate H. Qed.

(** C7: the weight is exactly 128 at offset 0 and non-decreasing in
    the signed offset, for both axis multipliers. *)
Theorem weight_center_and_monotone :
  (forall is_x_axis, calc_weight_fixed 0 is_x_axis = 128)
  /\ (forall is_x_axis d1 d2,
        d1 <= d2 ->
        calc_weight_fixed d1 is_x_axis <= calc_weight_fixed d2 is_x_axis).
Proof.
  split.
  - intros []; reflexivity.
  - intros is_x_axis d1 d2 Hle.
    rewrite !calc_weight_fixed_closed.
    apply clamp255_mono. unfold toward_zero_shift10.
    assert (d1 * axis_multiplier is_x_axis
            <= d2 * axis_multiplier is_x_axis) as Hm
        by (destruct is_x_axis; simpl; lia).
    pose proof (Z.quot_le_mono _ _ 1024 ltac:(lia) Hm). lia.
Qed.

Lemma weight_center_and_monotone_witness :
  calc_weight_fixed 0 true = 128
  /\ calc_weight_fixed (- 160) true <= calc_weight_fixed 159 true.
Proof.
  destruct weight_center_and_monotone as [Hc Hm].
  split; [apply Hc | apply Hm; lia].
Defined.

(** C8: across the seam of two horizontally adjacent tiles the weight
    at the last column of the left tile is within one unit of 255 and
    the weight at the first column of the right tile within one unit
    of 0. *)
Theorem boundary_continuity :
  Z.abs (255 - calc_weight_fixed (boundary_dx (TILE_WIDTH - 1)) true) <= 1
  /\ Z.abs (calc_weight_fixed (boundary_dx 0) true - 0) <= 1.
Proof. split; vm_compute; discriminate. Qed.

End Weights.

(** ** The bilinear blend *)

Section Bilinear.
Import debug_interp_weights.

Lemma land_255_mod (x : Z) : Z.land x 255 = x mod 256.
Proof. change 255 with (Z.ones 8). apply Z.land_ones. lia. Qed.

Lemma calc_weight_verilog_range (local_coord : Z) (is_x_axis : bool) :
  0 <= calc_weight_verilog local_coord is_x_axis <= 255.
Proof.
  unfold calc_weight_verilog.
  destruct is_x_axis; cbv zeta; rewrite land_255_mod;
    match goal with
    | |- _ <= ?x mod 256 <= _ => pose proof (Z.mod_pos_bound x 256)
    end; lia.
Qed.

Lemma blend_range (w a b : Z) :
  0 <= w <= 255 -> 0 <= a <= 255 -> 0 <= b <= 255 ->
  0 <= ((256 - w) * a + w * b) / 256 <= 255.
Proof.
  intros Hw Ha Hb. split.
  - apply Z.div_pos; nia.
  - apply Z.lt_succ_r, Z.div_lt_upper_bound; nia.
Qed.

(** C10: with both weights and the four looked-up values in 0..255 the
    result is the two nested weighted averages with flooring shifts by
    8, and it lies in 0..255. *)
Theorem bilinear_result_formula_and_range
    (wx wy v_tl v_tr v_bl v_br : Z) :
  0 <= wx <= 255 -> 0 <= wy <= 255 ->
  0 <= v_tl <= 255 -> 0 <= v_tr <= 255 ->
  0 <= v_bl <= 255 -> 0 <= v_br <= 255 ->
  let top := ((256 - wx) * v_tl + wx * v_tr) / 2 ^ 8 in
  let bottom := ((256 - wx) * v_bl + wx * v_br) / 2 ^ 8 in
  interp_top wx v_tl v_tr = top
  /\ interp_bottom wx v_bl v_br = bottom
  /\ bilinear_result wx wy v_tl v_tr v_bl v_br
     = ((256 - wy) * top + wy * bottom) / 2 ^ 8
  /\ 0 <= bilinear_result wx wy v_tl v_tr v_bl v_br <= 255.
Proof.
  intros Hwx Hwy Htl Htr Hbl Hbr top bottom.
  unfold bilinear_result, interp_top, interp_bottom.
  rewrite !Z.shiftr_div_pow2 by lia.
  subst top bottom. change (2 ^ 8) with 256.
  repeat split; try reflexivity;
    apply blend_range; auto using blend_range.
Qed.

Lemma bilinear_result_formula_and_range_witness :
  bilinear_result 63 63 100 150 120 180 = 117
  /\ 0 <= bilinear_result 63 63 100 150 120 180 <= 255.
Proof.
  pose proof (bilinear_result_formula_and_range 63 63 100 150 120 180
                ltac:(lia) ltac:(lia) ltac:(lia) ltac:(lia)
                ltac:(lia) ltac:(lia)) as (_ & _ & Hr & Hb).
  split; [rewrite Hr; reflexivity | exact Hb].
Defined.

End Bilinear.

(** ** Arrays: reading, writing and summing *)

Section Arrays.
Import verify_cdf_golden Props.

Lemma wrap32_id (z : Z) : - 2 ^ 31 <= z <= INT32_MAX -> wrap32 z = z.
Proof.
  unfold wrap32, INT32_MAX. intros Hz.
  rewrite Z.mod_small by lia. lia.
Qed.

Lemma getitem_lookup (a : list Z) (i : nat) (x : Z) :
  a !! i = Some x -> getitem a i = x.
Proof. unfold getitem. intros ->. reflexivity. Qed.

Lemma lookup_getitem (a : list Z) (i : nat) :
  (i < length a)%nat -> a !! i = Some (getitem a i).
Proof.
  intros Hi. destruct (lookup_lt_is_Some_2 a i Hi) as [x Hx].
  rewrite (getitem_lookup _ _ _ Hx). exact Hx.
Qed.

Lemma getitem_insert_eq (a : list Z) (i : nat) (v : Z) :
  (i < length a)%nat -> getitem (<[i := v]> a) i = v.
Proof.
  intros Hi. apply getitem_lookup. by apply list_lookup_insert_eq.
Qed.

Lemma getitem_insert_ne (a : list Z) (i j : nat) (v : Z) :
  i <> j -> getitem (<[i := v]> a) j = getitem a j.
Proof.
  intros Hne. unfold getitem. by rewrite list_lookup_insert_ne.
Qed.

Lemma getitem_cons_S (x : Z) (a : list Z) (i : nat) :
  getitem (x :: a) (S i) = getitem a i.
Proof. reflexivity. Qed.

Lemma list_eq_getitem (a b : list Z) :
  length a = length b ->
  (forall i, (i < length a)%nat -> getitem a i = getitem b i) ->
  a = b.
Proof.
  intros Hlen Hget. apply list_eq. intros i.
  destruct (Nat.lt_ge_cases i (length a)) as [Hi | Hi].
  - rewrite (lookup_getitem a i Hi).
    rewrite (lookup_getitem b i) by lia.
    f_equal. by apply Hget.
  - rewrite !lookup_ge_None_2; [done | lia | lia].
Qed.

Lemma sumZ_app (a b : list Z) : sumZ (a ++ b) = sumZ a + sumZ b.
Proof. induction a as [| x a IH]; simpl; [reflexivity | rewrite IH; lia]. Qed.

Lemma sumZ_insert (a : list Z) (i : nat) (v : Z) :
  (i < length a)%nat ->
  sumZ (<[i := v]> a) = sumZ a - getitem a i + v.
Proof.
  revert i. induction a as [| x a IH]; intros i Hi; simpl in *; [lia |].
  destruct i as [| i]; simpl.
  - unfold getitem. simpl. lia.
  - rewrite getitem_cons_S, IH by lia. lia.
Qed.

Lemma sumZ_nonneg (a : list Z) : Forall (fun x => 0 <= x) a -> 0 <= sumZ a.
Proof. induction 1; simpl; lia. Qed.

Lemma getitem_le_sumZ (a : list Z) (i : nat) :
  Forall (fun x => 0 <= x) a -> getitem a i <= sumZ a.
Proof.
  intros Ha. revert i. induction Ha as [| x a Hx Ha IH]; intros i.
  - destruct i; reflexivity.
  - pose proof (sumZ_nonneg a Ha). destruct i as [| i]; simpl.
    + unfold getitem. simpl. lia.
    + rewrite getitem_cons_S. specialize (IH i). lia.
Qed.

Lemma getitem_nonneg (a : list Z) (i : nat) :
  Forall (fun x => 0 <= x) a -> 0 <= getitem a i.
Proof.
  intros Ha. unfold getitem. destruct (a !! i) as [x |] eqn:E; simpl.
  - exact (Forall_lookup_1 _ _ _ _ Ha E).
  - lia.
Qed.

Lemma Forall_getitem (P : Z -> Prop) (a : list Z) :
  (forall i, (i < length a)%nat -> P (getitem a i)) -> Forall P a.
Proof.
  intros Hall. apply Forall_lookup_2. intros i x Hx.
  rewrite <- (getitem_lookup _ _ _ Hx).
  apply Hall. by eapply lookup_lt_Some.
Qed.

(** A list is the table of its own entries. *)
Lemma map_getitem_seq (a : list Z) :
  map (getitem a) (seq 0 (length a)) = a.
Proof.
  apply list_eq. intros i.
  rewrite list_lookup_fmap.
  destruct (Nat.lt_ge_cases i (length a)) as [Hi | Hi].
  - rewrite lookup_seq_lt by lia. simpl. by rewrite lookup_getitem.
  - rewrite lookup_seq_ge by lia. simpl. by rewrite lookup_ge_None_2.
Qed.

Lemma getitem_map_seq (f : nat -> Z) (n i : nat) :
  (i < n)%nat -> getitem (map f (seq 0 n)) i = f i.
Proof.
  intros Hi. apply getitem_lookup.
  rewrite list_lookup_fmap, lookup_seq_lt by lia. reflexivity.
Qed.

Lemma sumZ_map_add (f g : nat -> Z) (l : list nat) :
  sumZ (map (fun i => f i + g i) l) = sumZ (map f l) + sumZ (map g l).
Proof. induction l as [| i l IH]; simpl; [reflexivity | rewrite IH; lia]. Qed.

Lemma sumZ_map_const (c : Z) (l : list nat) :
  sumZ (map (fun _ => c) l) = Z.of_nat (length l) * c.
Proof.
  induction l as [| i l IH]; [reflexivity |].
  cbn [map sumZ foldr length]. fold (sumZ (map (fun _ => c) l)).
  rewrite IH. lia.
Qed.

(** How many of the first [n] indices lie below [r]. *)
Lemma sumZ_indicator (r : Z) (n : nat) :
  0 <= r ->
  sumZ (map (fun i => if Z.of_nat i <? r then 1 else 0) (seq 0 n))
  = Z.min (Z.of_nat n) r.
Proof.
  intros Hr. induction n as [| n IH]; [simpl; lia |].
  rewrite seq_S, map_app, sumZ_app, IH. simpl.
  destruct (Z.ltb_spec (Z.of_nat n) r); lia.
Qed.

End Arrays.

(** ** Step 1: the clipping loop *)

Section ClipLoop.
Import verify_cdf_golden Props.

Variable clip_limit : Z.
Variable h : list Z.
Hypothesis clip_limit_pos : 0 < clip_limit.
Hypothesis h_nonneg : Forall (fun x => 0 <= x) h.
Hypothesis h_total : sumZ h <= INT32_MAX.

Local Abbreviation clip_prefix := (Props.clip_prefix clip_limit h).
Local Abbreviation excess_upto := (Props.excess_upto clip_limit h).

Lemma excess_upto_nonneg (k : nat) : 0 <= excess_upto k.
Proof.
  unfold Props.excess_upto. apply sumZ_nonneg, Forall_forall.
  intros x Hx. apply list_elem_of_fmap in Hx as (j & -> & _). lia.
Qed.

Lemma excess_upto_S (k : nat) :
  excess_upto (S k) = excess_upto k + Z.max 0 (getitem h k - clip_limit).
Proof.
  unfold Props.excess_upto. rewrite seq_S, map_app, sumZ_app. simpl. lia.
Qed.

(** Loop invariant: the bins already visited are cut at [clip_limit],
    the others are untouched, [total_excess] is what was cut off, and
    nothing wrapped around. *)
Lemma clip_prefix_inv (k : nat) :
  (k <= length h)%nat ->
  length (fst (clip_prefix k)) = length h
  /\ (forall j, getitem (fst (clip_prefix k)) j
                = if (j <? k)%nat then Z.min clip_limit (getitem h j)
                  else getitem h j)
  /\ snd (clip_prefix k) = excess_upto k
  /\ sumZ (fst (clip_prefix k)) + snd (clip_prefix k) = sumZ h.
Proof.
  induction k as [| k IH]; intros Hk.
  - unfold Props.clip_prefix, Props.excess_upto. simpl. repeat split; lia.
  - destruct IH as (Hlen & Hget & Hexc & Hsum); [lia |].
    unfold Props.clip_prefix in *. rewrite seq_S, fold_left_app. simpl.
    destruct (fold_left (clip_step clip_limit) (seq 0 k) (h, 0))
      as [a e] eqn:Est.
    simpl in Hlen, Hget, Hexc, Hsum.
    assert (getitem a k = getitem h k) as Hak.
    { rewrite Hget. by rewrite (proj2 (Nat.ltb_ge k k)) by lia. }
    assert (Forall (fun x => 0 <= x) a) as Hann.
    { apply Forall_getitem. intros j _. rewrite Hget.
      pose proof (getitem_nonneg h j h_nonneg).
      destruct (j <? k)%nat; lia. }
    pose proof (getitem_le_sumZ a k Hann) as Hle.
    pose proof (excess_upto_nonneg k) as He.
    rewrite excess_upto_S.
    unfold clip_step. rewrite Hak in *.
    destruct (Z.gtb_spec (getitem h k) clip_limit) as [Hgt | Hngt].
    + assert (wrap32 clip_limit = clip_limit) as Hwc
          by (apply wrap32_id; unfold INT32_MAX in *; lia).
      assert (wrap32 (getitem h k - clip_limit) = getitem h k - clip_limit)
        as Hwe by (apply wrap32_id; unfold INT32_MAX in *; lia).
      unfold setitem32. rewrite Hwc, Hwe.
      rewrite wrap32_id by (unfold INT32_MAX in *; lia).
      simpl. repeat split.
      * by rewrite length_insert.
      * intros j. destruct (Nat.eq_dec j k) as [-> | Hne].
        -- rewrite getitem_insert_eq by lia.
           rewrite (proj2 (Nat.ltb_lt k (S k))) by lia. lia.
        -- rewrite getitem_insert_ne by lia. rewrite Hget.
           destruct (Nat.ltb_spec j k), (Nat.ltb_spec j (S k));
             try reflexivity; lia.
      * lia.
      * rewrite sumZ_insert by lia. lia.
    + simpl. repeat split.
      * exact Hlen.
      * intros j. rewrite Hget.
        destruct (Nat.ltb_spec j k), (Nat.ltb_spec j (S k));
          try reflexivity; try lia.
        assert (j = k) as -> by lia. lia.
      * lia.
      * lia.
Qed.

End ClipLoop.

(** ** Step 2: the redistribution loop *)

Section RedistributeLoop.
Import verify_cdf_golden Props.

Variables avg rem : Z.
Variable a0 : list Z.
Hypothesis avg_nonneg : 0 <= avg.
Hypothesis a0_nonneg : Forall (fun x => 0 <= x) a0.
Hypothesis a0_room :
  forall j, (j < length a0)%nat ->
            getitem a0 j + avg + (if Z.of_nat j <? rem then 1 else 0)
            <= INT32_MAX.

Local Abbreviation redistribute_prefix :=
  (Props.redistribute_prefix avg rem a0).

(** Loop invariant: every visited bin has gained [avg], and one more
    when its index is below [rem]; no store wrapped around. *)
Lemma redistribute_prefix_inv (k : nat) :
  (k <= length a0)%nat ->
  length (redistribute_prefix k) = length a0
  /\ (forall j, getitem (redistribute_prefix k) j
                = if (j <? k)%nat
                  then getitem a0 j + avg
                       + (if Z.of_nat j <? rem then 1 else 0)
                  else getitem a0 j).
Proof.
  induction k as [| k IH]; intros Hk.
  - unfold Props.redistribute_prefix. simpl. split; [reflexivity | done].
  - destruct IH as (Hlen & Hget); [lia |].
    unfold Props.redistribute_prefix in *. rewrite seq_S, fold_left_app. simpl.
    set (a := fold_left (redistribute_step avg rem) (seq 0 k) a0) in *.
    assert (getitem a k = getitem a0 k) as Hak.
    { rewrite Hget. by rewrite (proj2 (Nat.ltb_ge k k)) by lia. }
    pose proof (getitem_nonneg a0 k a0_nonneg) as H0.
    pose proof (a0_room k ltac:(lia)) as Hroom.
    unfold redistribute_step, setitem32. rewrite Hak.
    assert (wrap32 (getitem a0 k + avg) = getitem a0 k + avg) as Hw1.
    { apply wrap32_id. unfold INT32_MAX in *.
      destruct (Z.of_nat k <? rem); lia. }
    rewrite Hw1.
    rewrite getitem_insert_eq by lia.
    destruct (Z.ltb_spec (Z.of_nat k) rem) as [Hlt | Hge].
    + rewrite wrap32_id by (unfold INT32_MAX in *; lia).
      rewrite list_insert_insert_eq. split.
      * by rewrite length_insert.
      * intros j. destruct (Nat.eq_dec j k) as [-> | Hne].
        -- rewrite getitem_insert_eq by lia.
           rewrite (proj2 (Nat.ltb_lt k (S k))) by lia.
           rewrite (proj2 (Z.ltb_lt (Z.of_nat k) rem)) by lia. reflexivity.
        -- rewrite getitem_insert_ne by lia. rewrite Hget.
           destruct (Nat.ltb_spec j k), (Nat.ltb_spec j (S k));
             try reflexivity; lia.
    + split.
      * by rewrite length_insert.
      * intros j. destruct (Nat.eq_dec j k) as [-> | Hne].
        -- rewrite getitem_insert_eq by lia.
           rewrite (proj2 (Nat.ltb_lt k (S k))) by lia.
           rewrite (proj2 (Z.ltb_ge (Z.of_nat k) rem)) by lia. lia.
        -- rewrite getitem_insert_ne by lia. rewrite Hget.
           destruct (Nat.ltb_spec j k), (Nat.ltb_spec j (S k));
             try reflexivity; lia.
Qed.

End RedistributeLoop.

(** ** Steps 1 and 2 on a tile histogram *)

Section ContrastLimiter.
Import verify_cdf_golden Props.

Variable H : list Z.
Variable clip_limit : Z.
Hypothesis H_tile : tile_histogram H.
Hypothesis clip_limit_pos : 0 < clip_limit.

Lemma tile_length : length H = bins.
Proof. apply H_tile. Qed.

Lemma tile_nonneg : Forall (fun x => 0 <= x) H.
Proof. apply H_tile. Qed.

Lemma tile_total : sumZ H <= INT32_MAX.
Proof. apply H_tile. Qed.

Lemma astype_int32_tile : astype_int32 H = H.
Proof.
  unfold astype_int32. apply list_eq_getitem.
  - by rewrite length_map.
  - intros i Hi. rewrite length_map in Hi.
    unfold getitem at 1. rewrite list_lookup_fmap.
    rewrite (lookup_getitem H i Hi). simpl.
    apply wrap32_id.
    pose proof (getitem_nonneg H i tile_nonneg).
    pose proof (getitem_le_sumZ H i tile_nonneg).
    pose proof tile_total. unfold INT32_MAX in *. lia.
Qed.

Lemma clip_loop_prefix :
  clip_loop clip_limit (astype_int32 H)
  = clip_prefix clip_limit H bins.
Proof.
  rewrite astype_int32_tile. unfold clip_loop, clip_prefix. reflexivity.
Qed.

Lemma excess_upto_all : excess_upto clip_limit H bins = excess_above clip_limit H.
Proof.
  unfold excess_upto, excess_above. f_equal.
  rewrite <- tile_length.
  rewrite <- (map_map (getitem H) (fun x => Z.max 0 (x - clip_limit))).
  by rewrite map_getitem_seq.
Qed.

Lemma total_excess_spec :
  total_excess H clip_limit = excess_above clip_limit H.
Proof.
  unfold total_excess. rewrite clip_loop_prefix.
  destruct (clip_prefix_inv clip_limit H clip_limit_pos tile_nonneg
              tile_total bins) as (_ & _ & He & _);
    [rewrite tile_length; lia |].
  rewrite He. apply excess_upto_all.
Qed.

Lemma total_excess_nonneg : 0 <= total_excess H clip_limit.
Proof.
  rewrite total_excess_spec, <- excess_upto_all.
  apply excess_upto_nonneg.
Qed.

Lemma clipped_only_spec :
  length (clipped_only H clip_limit) = bins
  /\ (forall j, (j < bins)%nat ->
                getitem (clipped_only H clip_limit) j
                = Z.min clip_limit (getitem H j))
  /\ sumZ (clipped_only H clip_limit) + total_excess H clip_limit = sumZ H.
Proof.
  unfold clipped_only, total_excess. rewrite clip_loop_prefix.
  destruct (clip_prefix_inv clip_limit H clip_limit_pos tile_nonneg
              tile_total bins) as (Hlen & Hget & _ & Hsum);
    [rewrite tile_length; lia |].
  repeat split.
  - by rewrite Hlen, tile_length.
  - intros j Hj. rewrite Hget.
    by rewrite (proj2 (Nat.ltb_lt j bins)) by lia.
  - exact Hsum.
Qed.

Lemma clipped_only_nonneg :
  Forall (fun x => 0 <= x) (clipped_only H clip_limit).
Proof.
  destruct clipped_only_spec as (Hlen & Hget & _).
  apply Forall_getitem. intros i Hi. rewrite Hget by lia.
  pose proof (getitem_nonneg H i tile_nonneg). lia.
Qed.

Lemma avg_increment_nonneg : 0 <= avg_increment H clip_limit.
Proof.
  unfold avg_increment. apply Z.div_pos; [apply total_excess_nonneg |].
  reflexivity.
Qed.

Lemma remainder_range : 0 <= remainder H clip_limit < 256.
Proof. unfold remainder. apply Z.mod_pos_bound. reflexivity. Qed.

Lemma total_excess_split :
  total_excess H clip_limit
  = 256 * avg_increment H clip_limit + remainder H clip_limit.
Proof.
  unfold avg_increment, remainder. change (Z.of_nat bins) with 256.
  apply Z.div_mod. lia.
Qed.

(** Every store of step 2 stays within [np.int32]. *)
Lemma clipped_only_room (j : nat) :
  (j < length (clipped_only H clip_limit))%nat ->
  getitem (clipped_only H clip_limit) j + avg_increment H clip_limit
  + (if Z.of_nat j <? remainder H clip_limit then 1 else 0)
  <= INT32_MAX.
Proof.
  intros _.
  destruct clipped_only_spec as (_ & _ & Hsum).
  pose proof (getitem_le_sumZ _ j clipped_only_nonneg) as Hle.
  pose proof avg_increment_nonneg. pose proof remainder_range.
  pose proof total_excess_split. pose proof tile_total.
  destruct (Z.ltb_spec (Z.of_nat j) (remainder H clip_limit)); lia.
Qed.

Lemma redistribute_loop_prefix (avg rem : Z) (a : list Z) :
  redistribute_loop avg rem a = redistribute_prefix avg rem a bins.
Proof. unfold redistribute_loop, redistribute_prefix. reflexivity. Qed.

Lemma clipped_hist_spec :
  length (clipped_hist H clip_limit) = bins
  /\ (forall j, (j < bins)%nat ->
                getitem (clipped_hist H clip_limit) j
                = Z.min clip_limit (getitem H j)
                  + avg_increment H clip_limit
                  + (if Z.of_nat j <? remainder H clip_limit
                     then 1 else 0)).
Proof.
  destruct clipped_only_spec as (Hlen & Hget & _).
  destruct (redistribute_prefix_inv _ (remainder H clip_limit) _
              avg_increment_nonneg clipped_only_nonneg
              clipped_only_room bins) as (Hlen' & Hget');
    [rewrite Hlen; lia |].
  unfold clipped_hist. rewrite redistribute_loop_prefix.
  split.
  - by rewrite Hlen', Hlen.
  - intros j Hj. rewrite Hget'.
    rewrite (proj2 (Nat.ltb_lt j bins)) by lia.
    by rewrite Hget by lia.
Qed.

(** The array after step 2 as a table over the bin indices. *)
Lemma clipped_hist_table :
  clipped_hist H clip_limit
  = map (fun j => getitem (clipped_only H clip_limit) j
                  + (avg_increment H clip_limit
                     + (if Z.of_nat j <? remainder H clip_limit
                        then 1 else 0)))
        (seq 0 bins).
Proof.
  destruct clipped_hist_spec as (Hlen & Hget).
  destruct clipped_only_spec as (_ & Hget0 & _).
  apply list_eq_getitem.
  - by rewrite length_map, length_seq.
  - intros i Hi. rewrite Hlen in Hi.
    rewrite getitem_map_seq, Hget, Hget0 by lia. lia.
Qed.

Lemma clipped_hist_sum : sumZ (clipped_hist H clip_limit) = sumZ H.
Proof.
  destruct clipped_only_spec as (Hlen & _ & Hsum).
  pose proof remainder_range as Hr.
  assert (map (getitem (clipped_only H clip_limit)) (seq 0 bins)
          = clipped_only H clip_limit) as Htab
      by (rewrite <- Hlen; apply map_getitem_seq).
  assert (Z.of_nat bins = 256) as Hbins by reflexivity.
  rewrite clipped_hist_table.
  rewrite (sumZ_map_add (getitem (clipped_only H clip_limit))).
  rewrite (sumZ_map_add (fun _ => avg_increment H clip_limit)).
  rewrite sumZ_map_const, length_seq, sumZ_indicator by lia.
  rewrite Htab, Hbins.
  pose proof total_excess_split. lia.
Qed.

End ContrastLimiter.

(** ** ContrastLimiter: the claims *)

Section ContrastLimiterClaims.
Import verify_cdf_golden Props.

Lemma tile_histogramb_ok (H : list Z) :
  tile_histogramb H = true -> tile_histogram H.
Proof.
  unfold tile_histogramb, tile_histogram.
  rewrite !andb_true_iff, Nat.eqb_eq, Z.leb_le, forallb_forall.
  intros [[Hlen Hall] Hsum]. repeat split; [done | | done].
  apply Forall_forall. intros x Hx.
  apply Z.leb_le, Hall. by apply list_elem_of_In.
Qed.

(** C1: clipping and redistributing conserves the total count of a
    tile histogram, for every positive clip limit. *)
Theorem contrast_limiter_conserves_sum (H : list Z) (clip_limit : Z) :
  tile_histogram H -> 0 < clip_limit ->
  sumZ (clipped_hist H clip_limit) = sumZ H.
Proof. intros HH Hc. by apply clipped_hist_sum. Qed.

Lemma contrast_limiter_conserves_sum_witness :
  sumZ (clipped_hist (single_bin 50 tile_pixels) 500)
  = sumZ (single_bin 50 tile_pixels).
Proof.
  apply contrast_limiter_conserves_sum.
  - apply tile_histogramb_ok. vm_compute. reflexivity.
  - lia.
Defined.

(** C2: the accumulated excess is what the bins hold above the clip
    limit; [avg_increment] and [remainder] are its truncating quotient
    and remainder by 256; every bin ends as its clipped value plus
    [avg_increment], plus one exactly when its index is below
    [remainder]. *)
Theorem redistribution_exact (H : list Z) (clip_limit : Z) :
  tile_histogram H -> 0 < clip_limit ->
  let excess := excess_above clip_limit H in
  total_excess H clip_limit = excess
  /\ avg_increment H clip_limit = Z.quot excess 256
  /\ remainder H clip_limit = Z.rem excess 256
  /\ length (clipped_hist H clip_limit) = bins
  /\ (forall i, (i < bins)%nat ->
                getitem (clipped_hist H clip_limit) i
                = Z.min clip_limit (getitem H i)
                  + Z.quot excess 256
                  + (if Z.of_nat i <? Z.rem excess 256 then 1 else 0)).
Proof.
  intros HH Hc excess.
  pose proof (total_excess_spec H clip_limit HH Hc) as HE.
  pose proof (total_excess_nonneg H clip_limit HH Hc) as HE0.
  fold excess in HE.
  assert (avg_increment H clip_limit = Z.quot excess 256) as Hq.
  { unfold avg_increment. rewrite HE. change (Z.of_nat bins) with 256.
    symmetry. apply Z.quot_div_nonneg; lia. }
  assert (remainder H clip_limit = Z.rem excess 256) as Hr.
  { unfold remainder. rewrite HE. change (Z.of_nat bins) with 256.
    symmetry. apply Z.rem_mod_nonneg; lia. }
  destruct (clipped_hist_spec H clip_limit HH Hc) as (Hlen & Hget).
  repeat split; try assumption.
  intros i Hi. rewrite Hget by assumption. by rewrite Hq, Hr.
Qed.

Lemma redistribution_exact_witness :
  getitem (clipped_hist (single_bin 50 tile_pixels) 500) 75
  = Z.min 500 (getitem (single_bin 50 tile_pixels) 75) + 54 + 1
  /\ getitem (clipped_hist (single_bin 50 tile_pixels) 500) 76
     = Z.min 500 (getitem (single_bin 50 tile_pixels) 76) + 54 + 0.
Proof.
  destruct (redistribution_exact (single_bin 50 tile_pixels) 500)
    as (_ & _ & _ & _ & Hget).
  - apply tile_histogramb_ok. vm_compute. reflexivity.
  - lia.
  - split.
    + rewrite (Hget 75%nat) by (unfold bins; lia). reflexivity.
    + rewrite (Hget 76%nat) by (unfold bins; lia). reflexivity.
Defined.




End ContrastLimiterClaims.

(** ** Steps 3 and 4: the cumulative sum and its normalisation *)

Section Cdf.
Import verify_cdf_golden Props.













(** Below the clip limit nothing is cut and nothing is handed out. *)
Lemma clipped_hist_below_limit (H : list Z) (clip_limit : Z) :
  tile_histogram H -> 0 < clip_limit ->
  Forall (fun x => x <= clip_limit) H ->
  clipped_hist H clip_limit = H.
Proof.
  intros HH Hc Hbelow.
  assert (excess_above clip_limit H = 0) as HE.
  { unfold excess_above. clear HH.
    induction Hbelow as [| x l Hx Hl IH]; simpl; [reflexivity |].
    fold (sumZ (map (fun x => Z.max 0 (x - clip_limit)) l)).
    rewrite IH. lia. }
  destruct (clipped_hist_spec H clip_limit HH Hc) as (Hlen & Hget).
  pose proof (total_excess_spec H clip_limit HH Hc) as HT.
  rewrite HE in HT.
  apply list_eq_getitem.
  - rewrite Hlen. symmetry. apply HH.
  - intros i Hi. rewrite Hlen in Hi. rewrite Hget by assumption.
    unfold avg_increment, remainder. rewrite HT.
    rewrite Z.div_0_l, Z.mod_0_l by (change (Z.of_nat bins) with 256; lia).
    assert (getitem H i <= clip_limit).
    { unfold getitem. destruct (H !! i) as [x |] eqn:E; simpl; [| lia].
      exact (Forall_lookup_1 _ _ _ _ Hbelow E). }
    destruct (Z.of_nat i <? 0) eqn:E0; [apply Z.ltb_lt in E0 |]; lia.
Qed.


End Cdf.

(** ** calculate_cdf: the claims *)

Section CalculateCdfClaims.
Import verify_cdf_golden Props.

Lemma astype_uint8_range (x : spec_float) : 0 <= astype_uint8 x <= 255.
Proof.
  unfold astype_uint8. destruct (f64_trunc x) as [t |]; [| lia].
  destruct ((- 2 ^ 31 <=? t) && (t <? 2 ^ 31)); [| lia].
  pose proof (Z.mod_pos_bound t 256). lia.
Qed.

(** Whatever the histogram, the table holds bytes. *)
Lemma normalized_cdf_bytes (cdf : list Z) :
  Forall (fun v => 0 <= v <= 255) (normalized_cdf cdf).
Proof.
  unfold normalized_cdf.
  destruct ((total cdf =? cdf_min cdf) || (total cdf =? 0)).
  - apply Forall_replicate. lia.
  - apply Forall_fmap, Forall_true. intros v. apply astype_uint8_range.
Qed.




(** C3 at a failing input: bins 1 and 2 hold 100 counts each, bin 0 is
    empty and nothing is clipped.  The case is not degenerate, the
    formula at bin 0 gives -255, which clamps to 0, and the table
    holds 1 there. *)
Theorem normalized_cdf_wraps_before_first_bin :
  let H := 0 :: 100 :: 100 :: replicate 253 0 in
  let cdf := cumsum (clipped_hist H 500) in
  tile_histogram H
  /\ total cdf <> cdf_min cdf /\ total cdf <> 0
  /\ clamp255 ((getitem cdf 0 - cdf_min cdf) * 255
               / (total cdf - cdf_min cdf)) = 0
  /\ calculate_cdf H 500 = Some (1 :: 0 :: replicate 254 255).
Proof.
  cbv zeta. split; [apply tile_histogramb_ok; vm_compute; reflexivity |].
  repeat split; vm_compute; congruence.
Qed.

(** C4 at a failing input: a tile of 14400 pixels, half in bin 1 and
    half in bin 2, with clip limit 10000.  The table starts 1, 0 and
    is not non-decreasing. *)
Theorem calculate_cdf_not_monotone :
  let H := <[1%nat := 7200]> (<[2%nat := 7200]> (replicate bins 0)) in
  tile_histogram H
  /\ exists table,
       calculate_cdf H 10000 = Some table
       /\ table !! 0%nat = Some 1 /\ table !! 1%nat = Some 0
       /\ ~ non_decreasing table.
Proof.
  cbv zeta. split; [apply tile_histogramb_ok; vm_compute; reflexivity |].
  eexists. split; [vm_compute; reflexivity |].
  split; [reflexivity |]. split; [reflexivity |].
  intros Hmono. specialize (Hmono 0%nat 1 0 eq_refl eq_refl). lia.
Qed.

End CalculateCdfClaims.

(** ** Further properties of the weight function *)

Section WeightProperties.
Import verify_fixed_weights analyze_remaining_artifacts Props.

Lemma calc_weight_fixed_mono (is_x_axis : bool) (d1 d2 : Z) :
  d1 <= d2 ->
  calc_weight_fixed d1 is_x_axis <= calc_weight_fixed d2 is_x_axis.
Proof.
  intros Hle. rewrite !calc_weight_fixed_closed.
  apply clamp255_mono. unfold toward_zero_shift10.
  assert (d1 * axis_multiplier is_x_axis <= d2 * axis_multiplier is_x_axis)
    as Hm by (destruct is_x_axis; simpl; lia).
  pose proof (Z.quot_le_mono _ _ 1024 ltac:(lia) Hm). lia.
Qed.

Lemma quot_step (m k : Z) :
  0 <= k <= 1024 ->
  Z.quot m 1024 <= Z.quot (m + k) 1024 <= Z.quot m 1024 + 1.
Proof. intros Hk. Z.to_euclidean_division_equations. lia. Qed.

Lemma quot_step2 (m k : Z) :
  0 <= k <= 2048 ->
  Z.quot m 1024 <= Z.quot (m + k) 1024 <= Z.quot m 1024 + 2.
Proof. intros Hk. Z.to_euclidean_division_equations. lia. Qed.

(** X1: whatever the offset and the axis, the weight is a byte. *)
Theorem calc_weight_fixed_range (d : Z) (is_x_axis : bool) :
  0 <= calc_weight_fixed d is_x_axis <= 255.
Proof. rewrite calc_weight_fixed_closed. unfold clamp255. lia. Qed.

(** X2: [calc_current_weight] of analyze_remaining_artifacts.py and the
    x-axis branch of [calc_weight_fixed] are the same function, though
    one saturates with [max]/[min] and the other with comparisons. *)
Theorem calc_current_weight_agrees (dx : Z) :
  calc_current_weight dx = calc_weight_fixed dx true.
Proof. apply calc_current_weight_fixed. Qed.

(** X3: up to half a tile from the centre the weights of opposite
    offsets add up to 256 (the shift of a negative product is redone on
    its magnitude, so the offset is odd in [d]). *)
Theorem calc_weight_fixed_opposite (d : Z) (is_x_axis : bool) :
  Z.abs d <= (if is_x_axis then TILE_WIDTH / 2 else TILE_HEIGHT / 2) ->
  calc_weight_fixed d is_x_axis + calc_weight_fixed (- d) is_x_axis = 256.
Proof.
  intros Hd. rewrite !calc_weight_fixed_closed.
  unfold toward_zero_shift10, clamp255.
  rewrite Z.mul_opp_l, Z.quot_opp_l by lia.
  destruct is_x_axis; simpl in *;
    change (TILE_WIDTH / 2) with 160 in *;
    change (TILE_HEIGHT / 2) with 90 in *;
    Z.to_euclidean_division_equations; lia.
Qed.

Lemma calc_weight_fixed_opposite_witness :
  calc_weight_fixed 160 true + calc_weight_fixed (- 160) true = 256.
Proof.
  apply (calc_weight_fixed_opposite 160 true). vm_compute. discriminate.
Defined.

(** X4: where the weight saturates.  On the x axis it is 0 exactly from
    offset -161 down and 255 exactly from offset 159 up; on the y axis 0
    exactly from -91 down and 255 exactly from 90 up. *)
Theorem calc_weight_fixed_saturation (d : Z) :
  (calc_weight_fixed d true = 0 <-> d <= - 161)
  /\ (calc_weight_fixed d true = 255 <-> 159 <= d)
  /\ (calc_weight_fixed d false = 0 <-> d <= - 91)
  /\ (calc_weight_fixed d false = 255 <-> 90 <= d).
Proof.
  rewrite !calc_weight_fixed_closed.
  unfold toward_zero_shift10, clamp255, axis_multiplier.
  repeat split; intros Hd; Z.to_euclidean_division_equations; lia.
Qed.

(** X5: one pixel further changes the weight by 0 or 1 on the x axis
    and by at most 2 on the y axis. *)
Theorem calc_weight_fixed_step (d : Z) :
  0 <= calc_weight_fixed (d + 1) true - calc_weight_fixed d true <= 1
  /\ 0 <= calc_weight_fixed (d + 1) false - calc_weight_fixed d false <= 2.
Proof.
  rewrite !calc_weight_fixed_closed.
  unfold toward_zero_shift10, clamp255, axis_multiplier.
  replace ((d + 1) * 819) with (d * 819 + 819) by lia.
  replace ((d + 1) * 1456) with (d * 1456 + 1456) by lia.
  pose proof (quot_step (d * 819) 819 ltac:(lia)).
  pose proof (quot_step2 (d * 1456) 1456 ltac:(lia)).
  lia.
Qed.

(** X6: for every pixel column the loop of [visualize_fixed_weights]
    finds the tile that contains it and a weight between 1 and 255; the
    weight repeats from tile to tile, and across every seam it drops
    from 255 to 1.  Over the rows the weight lies between 1 and 254. *)
Theorem wx_of_pixel_periodic_seam (px : Z) :
  TILE_WIDTH * fst (wx_of_pixel px) <= px
    < TILE_WIDTH * (fst (wx_of_pixel px) + 1)
  /\ 1 <= snd (wx_of_pixel px) <= 255
  /\ wx_of_pixel (px + TILE_WIDTH)
     = (fst (wx_of_pixel px) + 1, snd (wx_of_pixel px))
  /\ snd (wx_of_pixel (TILE_WIDTH * px - 1)) = 255
  /\ snd (wx_of_pixel (TILE_WIDTH * px)) = 1
  /\ 1 <= snd (wy_of_pixel px) <= 254.
Proof.
  unfold wx_of_pixel, wy_of_pixel, TILE_WIDTH, TILE_HEIGHT,
    TILE_CENTER_X, TILE_CENTER_Y. cbn [fst snd].
  pose proof (Z.mod_pos_bound px 320 ltac:(lia)) as Hx.
  pose proof (Z.mod_pos_bound px 180 ltac:(lia)) as Hy.
  pose proof (calc_weight_fixed_mono true (- 160) (px mod 320 - 160)
                ltac:(lia)) as Hlo.
  pose proof (calc_weight_fixed_mono true (px mod 320 - 160) 159
                ltac:(lia)) as Hhi.
  pose proof (calc_weight_fixed_mono false (- 90) (px mod 180 - 90)
                ltac:(lia)) as Hlo'.
  pose proof (calc_weight_fixed_mono false (px mod 180 - 90) 89
                ltac:(lia)) as Hhi'.
  change (calc_weight_fixed (- 160) true) with 1 in Hlo.
  change (calc_weight_fixed 159 true) with 255 in Hhi.
  change (calc_weight_fixed (- 90) false) with 1 in Hlo'.
  change (calc_weight_fixed 89 false) with 254 in Hhi'.
  repeat split; try lia.
  - pose proof (Z.div_mod px 320 ltac:(lia)). lia.
  - pose proof (Z.div_mod px 320 ltac:(lia)). lia.
  - replace (px + 320) with (px + 1 * 320) by lia.
    rewrite Z.div_add, Z.mod_add by lia. reflexivity.
  - replace (320 * px - 1) with (319 + (px - 1) * 320) by lia.
    rewrite Z.mod_add by lia. reflexivity.
  - replace (320 * px) with (0 + px * 320) by lia.
    rewrite Z.mod_add by lia. reflexivity.
Qed.

End WeightProperties.

(** ** The corner-relative weight and the blend *)

Section InterpolationProperties.
Import verify_fixed_weights analyze_remaining_artifacts debug_interp_weights.
Import verify_cdf_golden weight_precision Props.

Lemma calc_weight_verilog_div_mod (local_coord : Z) (is_x_axis : bool) :
  calc_weight_verilog local_coord is_x_axis
  = (local_coord * axis_multiplier is_x_axis / 1024) mod 256.
Proof.
  unfold calc_weight_verilog, axis_multiplier.
  destruct is_x_axis; cbv zeta;
    rewrite land_255_mod, Z.shiftr_div_pow2 by lia; reflexivity.
Qed.

(** X7: inside a tile the mask of [calc_weight_verilog] cuts nothing
    off: the weight is the floored product, it does not decrease along
    the tile, and it starts at 0. *)
Theorem calc_weight_verilog_in_tile (a b : Z) (is_x_axis : bool) :
  0 <= a <= b ->
  b < (if is_x_axis then TILE_WIDTH else TILE_HEIGHT) ->
  calc_weight_verilog a is_x_axis = a * axis_multiplier is_x_axis / 1024
  /\ calc_weight_verilog 0 is_x_axis = 0
  /\ calc_weight_verilog a is_x_axis <= calc_weight_verilog b is_x_axis.
Proof.
  intros Hab Hb. rewrite !calc_weight_verilog_div_mod.
  unfold axis_multiplier, TILE_WIDTH, TILE_HEIGHT in *.
  destruct is_x_axis; Z.to_euclidean_division_equations; lia.
Qed.

Lemma calc_weight_verilog_in_tile_witness :
  calc_weight_verilog 80 true = 80 * 819 / 1024
  /\ calc_weight_verilog 0 true = 0
  /\ calc_weight_verilog 80 true <= calc_weight_verilog 319 true.
Proof.
  apply (calc_weight_verilog_in_tile 80 319 true);
    [lia | vm_compute; reflexivity].
Defined.

(** X8: inside a tile the corner-relative weight of
    debug_interp_weights.py is the centre-relative weight of
    verify_fixed_weights.py or up to two units below it. *)
Theorem calc_weight_verilog_near_fixed (local_coord : Z) (is_x_axis : bool) :
  0 <= local_coord
  < (if is_x_axis then TILE_WIDTH else TILE_HEIGHT) ->
  let centre := if is_x_axis then TILE_CENTER_X else TILE_CENTER_Y in
  calc_weight_fixed (local_coord - centre) is_x_axis - 2
  <= calc_weight_verilog local_coord is_x_axis
  <= calc_weight_fixed (local_coord - centre) is_x_axis.
Proof.
  intros Hl centre. subst centre.
  rewrite calc_weight_verilog_div_mod, !calc_weight_fixed_closed.
  unfold toward_zero_shift10, clamp255, axis_multiplier,
    TILE_WIDTH, TILE_HEIGHT, TILE_CENTER_X, TILE_CENTER_Y in *.
  destruct is_x_axis; Z.to_euclidean_division_equations; lia.
Qed.

Lemma calc_weight_verilog_near_fixed_witness :
  calc_weight_fixed (0 - TILE_CENTER_X) true - 2
  <= calc_weight_verilog 0 true
  <= calc_weight_fixed (0 - TILE_CENTER_X) true.
Proof.
  apply (calc_weight_verilog_near_fixed 0 true). vm_compute.
  split; [discriminate | reflexivity].
Defined.

Lemma blend_between (w a b : Z) :
  0 <= w <= 256 ->
  Z.min a b <= Z.shiftr ((256 - w) * a + w * b) 8 <= Z.max a b.
Proof.
  intros Hw. rewrite Z.shiftr_div_pow2 by lia. change (2 ^ 8) with 256.
  split.
  - apply Z.div_le_lower_bound; nia.
  - apply Z.lt_succ_r, Z.div_lt_upper_bound; nia.
Qed.

(** X9: with weights between 0 and 256 the blended value stays between
    the smallest and the largest of the four tile values. *)
Theorem bilinear_result_between (wx wy v_tl v_tr v_bl v_br : Z) :
  0 <= wx <= 256 -> 0 <= wy <= 256 ->
  Z.min (Z.min v_tl v_tr) (Z.min v_bl v_br)
  <= bilinear_result wx wy v_tl v_tr v_bl v_br
  <= Z.max (Z.max v_tl v_tr) (Z.max v_bl v_br).
Proof.
  intros Hwx Hwy. unfold bilinear_result, interp_top, interp_bottom.
  pose proof (blend_between wx v_tl v_tr Hwx).
  pose proof (blend_between wx v_bl v_br Hwx).
  pose proof (blend_between wy
                (Z.shiftr ((256 - wx) * v_tl + wx * v_tr) 8)
                (Z.shiftr ((256 - wx) * v_bl + wx * v_br) 8) Hwy).
  lia.
Qed.

Lemma bilinear_result_between_witness :
  Z.min (Z.min 100 150) (Z.min 120 180)
  <= bilinear_result 63 63 100 150 120 180
  <= Z.max (Z.max 100 150) (Z.max 120 180).
Proof. apply bilinear_result_between; lia. Defined.

(** X10: where the four tiles agree the blend returns their common
    value, whatever the weights; and with both weights 0 it returns the
    top-left value. *)
Theorem bilinear_result_flat (wx wy v v_tl v_tr v_bl v_br : Z) :
  bilinear_result wx wy v v v v = v
  /\ bilinear_result 0 0 v_tl v_tr v_bl v_br = v_tl.
Proof.
  unfold bilinear_result, interp_top, interp_bottom.
  rewrite !Z.shiftr_div_pow2 by lia. change (2 ^ 8) with 256.
  assert (forall w x, ((256 - w) * x + w * x) / 256 = x) as Hflat.
  { intros w x. replace ((256 - w) * x + w * x) with (x * 256) by lia.
    apply Z.div_mul. lia. }
  split.
  - rewrite !Hflat. reflexivity.
  - replace ((256 - 0) * v_tl + 0 * v_tr) with (v_tl * 256) by lia.
    replace ((256 - 0) * v_bl + 0 * v_br) with (v_bl * 256) by lia.
    rewrite !Z.div_mul by lia.
    replace ((256 - 0) * v_tl + 0 * v_bl) with (v_tl * 256) by lia.
    apply Z.div_mul. lia.
Qed.

(** X11: shifting after each of the two stages loses at most one unit
    against a single shift by 16 of the full weighted sum. *)
Theorem bilinear_result_truncation (wx wy v_tl v_tr v_bl v_br : Z) :
  0 <= wy <= 256 ->
  let full := (256 - wy) * ((256 - wx) * v_tl + wx * v_tr)
              + wy * ((256 - wx) * v_bl + wx * v_br) in
  bilinear_result wx wy v_tl v_tr v_bl v_br
  <= Z.shiftr full 16
  <= bilinear_result wx wy v_tl v_tr v_bl v_br + 1.
Proof.
  intros Hwy full. subst full.
  unfold bilinear_result, interp_top, interp_bottom.
  rewrite !Z.shiftr_div_pow2 by lia.
  change (2 ^ 8) with 256. change (2 ^ 16) with 65536.
  set (T := (256 - wx) * v_tl + wx * v_tr).
  set (B := (256 - wx) * v_bl + wx * v_br).
  pose proof (Z.div_mod T 256 ltac:(lia)) as HT.
  pose proof (Z.mod_pos_bound T 256 ltac:(lia)) as HT'.
  pose proof (Z.div_mod B 256 ltac:(lia)) as HB.
  pose proof (Z.mod_pos_bound B 256 ltac:(lia)) as HB'.
  set (t := T / 256) in *. set (b := B / 256) in *.
  set (rt := T mod 256) in *. set (rb := B mod 256) in *.
  set (S := (256 - wy) * t + wy * b).
  assert (256 * S <= (256 - wy) * T + wy * B < 256 * S + 65536) as Hs
    by (subst S; nia).
  pose proof (Z.div_mod S 256 ltac:(lia)) as HS.
  pose proof (Z.mod_pos_bound S 256 ltac:(lia)) as HS'.
  split.
  - apply Z.div_le_lower_bound; lia.
  - apply Z.lt_succ_r, Z.div_lt_upper_bound; lia.
Qed.

Lemma bilinear_result_truncation_witness :
  bilinear_result 255 255 0 255 0 255
  <= Z.shiftr ((256 - 255) * ((256 - 255) * 0 + 255 * 255)
               + 255 * ((256 - 255) * 0 + 255 * 255)) 16
  <= bilinear_result 255 255 0 255 0 255 + 1.
Proof. apply (bilinear_result_truncation 255 255 0 255 0 255). lia. Defined.

End InterpolationProperties.

(** ** The fixed-point weights against their floating-point references *)

Section WeightPrecision.
Import verify_fixed_weights analyze_remaining_artifacts debug_interp_weights.
Import verify_cdf_golden weight_precision Props.

Lemma Z_range_forallb (P : Z -> bool) (lo : Z) (n : nat) :
  forallb P (Z_range lo n) = true ->
  forall z, lo <= z < lo + Z.of_nat n -> P z = true.
Proof.
  intros Hall z Hz. rewrite forallb_forall in Hall. apply Hall.
  unfold Z_range. apply in_map_iff. exists (Z.to_nat (z - lo)). split.
  - lia.
  - apply in_seq. lia.
Qed.

(** X12: over the offsets of a tile, -160 to 159, the floating-point
    reference [calc_ideal_weight] is defined and the fixed-point
    [calc_current_weight] is within one unit of it. *)
Theorem calc_current_weight_near_ideal (dx : Z) :
  - TILE_CENTER_X <= dx < TILE_WIDTH - TILE_CENTER_X ->
  exists ideal,
    calc_ideal_weight dx TILE_WIDTH = Some ideal
    /\ Z.abs (calc_current_weight dx - ideal) <= 1.
Proof.
  intros Hdx.
  assert (near_ideal (calc_current_weight dx)
            (calc_ideal_weight dx TILE_WIDTH) = true) as Hnear.
  { apply (Z_range_forallb
             (fun d => near_ideal (calc_current_weight d)
                         (calc_ideal_weight d TILE_WIDTH))
             (- 160) 320); [vm_compute; reflexivity |].
    unfold TILE_CENTER_X, TILE_WIDTH in Hdx. lia. }
  unfold near_ideal in Hnear.
  destruct (calc_ideal_weight dx TILE_WIDTH) as [ideal |]; [| discriminate].
  exists ideal. split; [reflexivity | by apply Z.leb_le].
Qed.

Lemma calc_current_weight_near_ideal_witness :
  exists ideal,
    calc_ideal_weight (- 160) TILE_WIDTH = Some ideal
    /\ Z.abs (calc_current_weight (- 160) - ideal) <= 1.
Proof.
  apply calc_current_weight_near_ideal. vm_compute.
  split; [discriminate | reflexivity].
Defined.

(** X13: over the local coordinates of a tile the floating-point
    reference [calc_weight_ideal] is defined and [calc_weight_verilog]
    is that value or one unit below it, on both axes. *)
Theorem calc_weight_verilog_below_ideal (local_coord : Z) (is_x_axis : bool) :
  0 <= local_coord
  < (if is_x_axis then TILE_WIDTH else TILE_HEIGHT) ->
  exists ideal,
    calc_weight_ideal local_coord
      (if is_x_axis then TILE_WIDTH else TILE_HEIGHT) = Some ideal
    /\ ideal - 1 <= calc_weight_verilog local_coord is_x_axis <= ideal.
Proof.
  intros Hl.
  assert (below_ideal (calc_weight_verilog local_coord is_x_axis)
            (calc_weight_ideal local_coord
               (if is_x_axis then TILE_WIDTH else TILE_HEIGHT)) = true)
    as Hnear.
  { destruct is_x_axis.
    - apply (Z_range_forallb
               (fun x => below_ideal (calc_weight_verilog x true)
                           (calc_weight_ideal x TILE_WIDTH))
               0 320); [vm_compute; reflexivity |].
      unfold TILE_WIDTH in Hl. lia.
    - apply (Z_range_forallb
               (fun y => below_ideal (calc_weight_verilog y false)
                           (calc_weight_ideal y TILE_HEIGHT))
               0 180); [vm_compute; reflexivity |].
      unfold TILE_HEIGHT in Hl. lia. }
  unfold below_ideal in Hnear.
  destruct (calc_weight_ideal _ _) as [ideal |]; [| discriminate].
  exists ideal. apply andb_true_iff in Hnear as [H1 H2].
  apply Z.leb_le in H1, H2. split; [reflexivity | lia].
Qed.

Lemma calc_weight_verilog_below_ideal_witness :
  exists ideal,
    calc_weight_ideal 319 TILE_WIDTH = Some ideal
    /\ ideal - 1 <= calc_weight_verilog 319 true <= ideal.
Proof.
  apply (calc_weight_verilog_below_ideal 319 true). vm_compute.
  split; [discriminate | reflexivity].
Defined.

End WeightPrecision.

(** ** Further properties of calculate_cdf *)

Section CalculateCdfProperties.
Import verify_cdf_golden Props.

Lemma clip_step_length (clip_limit : Z) (st : list Z * Z) (i : nat) :
  length (fst (clip_step clip_limit st i)) = length (fst st).
Proof.
  destruct st as [a e]. unfold clip_step, setitem32.
  destruct (getitem a i >? clip_limit); simpl; [apply length_insert | done].
Qed.

Lemma clip_prefix_length (clip_limit : Z) (h : list Z) (k : nat) :
  length (fst (clip_prefix clip_limit h k)) = length h.
Proof.
  unfold clip_prefix. induction k as [| k IH]; [reflexivity |].
  rewrite seq_S, fold_left_app. simpl.
  rewrite clip_step_length. exact IH.
Qed.

Lemma redistribute_prefix_length (avg rem : Z) (a0 : list Z) (k : nat) :
  length (redistribute_prefix avg rem a0 k) = length a0.
Proof.
  unfold redistribute_prefix. induction k as [| k IH]; [reflexivity |].
  rewrite seq_S, fold_left_app. simpl.
  unfold redistribute_step, setitem32.
  destruct (Z.of_nat k <? rem); rewrite ?length_insert; exact IH.
Qed.

(** The loops keep the length of any array, whatever it holds. *)
Lemma clipped_hist_length (H : list Z) (clip_limit : Z) :
  length (clipped_hist H clip_limit) = length H.
Proof.
  unfold clipped_hist. rewrite redistribute_loop_prefix.
  rewrite redistribute_prefix_length.
  unfold clipped_only, clip_loop.
  change (fold_left (clip_step clip_limit) (seq 0 bins)
            (astype_int32 H, 0))
    with (clip_prefix clip_limit (astype_int32 H) bins).
  rewrite clip_prefix_length. unfold astype_int32. apply length_map.
Qed.

Lemma cumsum_from_length (acc : Z) (a : list Z) :
  length (cumsum_from acc a) = length a.
Proof.
  revert acc. induction a as [| x a IH]; intros acc; simpl;
    [reflexivity | by rewrite IH].
Qed.

Lemma cumsum_from_last (acc x : Z) (a : list Z) (d : Z) :
  List.last (cumsum_from acc (x :: a)) d = acc + sumZ (x :: a).
Proof.
  revert acc x. induction a as [| y a IH]; intros acc x.
  - simpl. lia.
  - change (cumsum_from acc (x :: y :: a))
      with ((acc + x) :: cumsum_from (acc + x) (y :: a)).
    change (List.last ((acc + x) :: cumsum_from (acc + x) (y :: a)) d)
      with (List.last (cumsum_from (acc + x) (y :: a)) d).
    rewrite IH. simpl. lia.
Qed.

Lemma total_cumsum (a : list Z) : total (cumsum a) = sumZ a.
Proof.
  unfold total, cumsum. destruct a as [| x a]; [reflexivity |].
  rewrite cumsum_from_last. lia.
Qed.

Lemma cumsum_from_lookup (acc : Z) (a : list Z) (i : nat) :
  (i < length a)%nat ->
  getitem (cumsum_from acc a) i = acc + sumZ (take (S i) a).
Proof.
  revert acc i. induction a as [| x a IH]; intros acc i Hi; simpl in Hi;
    [lia |].
  destruct i as [| i].
  - unfold getitem. destruct a; simpl; lia.
  - change (cumsum_from acc (x :: a))
      with ((acc + x) :: cumsum_from (acc + x) a).
    rewrite getitem_cons_S, IH by lia.
    change (take (S (S i)) (x :: a)) with (x :: take (S i) a).
    simpl. lia.
Qed.

(** X14: when no bin exceeds the clip limit, steps 1 and 2 leave the
    histogram as it is and the accumulated excess is 0. *)
Theorem clipped_hist_identity (H : list Z) (clip_limit : Z) :
  tile_histogram H -> 0 < clip_limit ->
  Forall (fun x => x <= clip_limit) H ->
  total_excess H clip_limit = 0 /\ clipped_hist H clip_limit = H.
Proof.
  intros HH Hc Hbelow. split; [| by apply clipped_hist_below_limit].
  rewrite (total_excess_spec H clip_limit HH Hc).
  unfold excess_above. clear HH.
  induction Hbelow as [| x l Hx Hl IH]; simpl; [reflexivity |].
  fold (sumZ (map (fun x => Z.max 0 (x - clip_limit)) l)).
  rewrite IH. lia.
Qed.

Lemma clipped_hist_identity_witness :
  total_excess (single_bin 50 16) 100 = 0
  /\ clipped_hist (single_bin 50 16) 100 = single_bin 50 16.
Proof.
  apply clipped_hist_identity.
  - apply tile_histogramb_ok. vm_compute. reflexivity.
  - lia.
  - apply Forall_forall. intros x Hx.
    apply list_elem_of_In, (forallb_forall (fun x => x <=? 100)) in Hx;
      [by apply Z.leb_le | vm_compute; reflexivity].
Defined.

(** X15: the clipped and redistributed histogram of a tile histogram is
    a tile histogram again: 256 bins, none negative, none beyond
    [np.int32], with the same total. *)
Theorem clipped_hist_tile (H : list Z) (clip_limit : Z) :
  tile_histogram H -> 0 < clip_limit ->
  tile_histogram (clipped_hist H clip_limit)
  /\ Forall (fun x => 0 <= x <= INT32_MAX) (clipped_hist H clip_limit).
Proof.
  intros HH Hc.
  destruct (clipped_hist_spec H clip_limit HH Hc) as (Hlen & Hget).
  pose proof (clipped_hist_sum H clip_limit HH Hc) as Hsum.
  pose proof (avg_increment_nonneg H clip_limit HH Hc) as Havg.
  assert (Forall (fun x => 0 <= x) (clipped_hist H clip_limit)) as Hnn.
  { apply Forall_getitem. intros i Hi. rewrite Hlen in Hi.
    rewrite Hget by assumption.
    pose proof (getitem_nonneg H i (tile_nonneg H HH)).
    destruct (Z.of_nat i <? remainder H clip_limit); lia. }
  split.
  - repeat split; [exact Hlen | exact Hnn |].
    rewrite Hsum. apply HH.
  - apply Forall_getitem. intros i Hi.
    pose proof (getitem_nonneg _ i Hnn).
    pose proof (getitem_le_sumZ _ i Hnn).
    pose proof (tile_total H HH). lia.
Qed.

Lemma clipped_hist_tile_witness :
  tile_histogram (clipped_hist (single_bin 50 tile_pixels) 500)
  /\ Forall (fun x => 0 <= x <= INT32_MAX)
            (clipped_hist (single_bin 50 tile_pixels) 500).
Proof.
  apply clipped_hist_tile.
  - apply tile_histogramb_ok. vm_compute. reflexivity.
  - lia.
Defined.

(** The running sums of non-negative counts grow and stay below the
    total. *)
Lemma cumsum_nonneg (a : list Z) :
  Forall (fun x => 0 <= x) a ->
  non_decreasing (cumsum a)
  /\ Forall (fun v => 0 <= v <= sumZ a) (cumsum a).
Proof.
  intros Hnn.
  assert (forall i, (i < length a)%nat ->
                    0 <= sumZ (take (S i) a) <= sumZ a) as Hpre.
  { intros i Hi.
    pose proof (sumZ_app (take (S i) a) (drop (S i) a)) as Happ.
    rewrite take_drop in Happ.
    pose proof (sumZ_nonneg (take (S i) a) (Forall_take _ _ _ Hnn)).
    pose proof (sumZ_nonneg (drop (S i) a) (Forall_drop _ _ _ Hnn)).
    lia. }
  unfold cumsum. split.
  - intros i x y Hx Hy.
    assert (S i < length a)%nat as Hi.
    { apply lookup_lt_Some in Hy. by rewrite cumsum_from_length in Hy. }
    apply getitem_lookup in Hx, Hy.
    rewrite cumsum_from_lookup in Hx, Hy by lia. subst x y.
    rewrite (take_S_r a (S i) (getitem a (S i)))
      by (apply lookup_getitem; lia).
    rewrite sumZ_app. cbn [sumZ foldr].
    pose proof (getitem_nonneg a (S i) Hnn). lia.
  - apply (Forall_getitem (fun v => 0 <= v <= sumZ a)). intros i Hi.
    rewrite cumsum_from_length in Hi.
    rewrite cumsum_from_lookup by assumption.
    specialize (Hpre i Hi). lia.
Qed.

(** X16: the cumulative sums of a clipped tile histogram do not
    decrease, stay between 0 and the pixel count of the tile, and end
    at that count: [total] is the number of pixels of the tile. *)
Theorem cdf_grows_to_pixel_count (H : list Z) (clip_limit : Z) :
  tile_histogram H -> 0 < clip_limit ->
  length (cumsum (clipped_hist H clip_limit)) = bins
  /\ non_decreasing (cumsum (clipped_hist H clip_limit))
  /\ Forall (fun v => 0 <= v <= sumZ H)
            (cumsum (clipped_hist H clip_limit))
  /\ total (cumsum (clipped_hist H clip_limit)) = sumZ H.
Proof.
  intros HH Hc.
  destruct (clipped_hist_tile H clip_limit HH Hc) as [(Hlen & Hnn & _) _].
  pose proof (clipped_hist_sum H clip_limit HH Hc) as Hsum.
  destruct (cumsum_nonneg _ Hnn) as [Hmono Hbound].
  rewrite Hsum in Hbound.
  split; [| split; [exact Hmono | split; [exact Hbound |]]].
  - unfold cumsum. by rewrite cumsum_from_length.
  - by rewrite total_cumsum.
Qed.

Lemma cdf_grows_to_pixel_count_witness :
  total (cumsum (clipped_hist (single_bin 50 tile_pixels) 500))
  = sumZ (single_bin 50 tile_pixels).
Proof.
  destruct (cdf_grows_to_pixel_count (single_bin 50 tile_pixels) 500)
    as (_ & _ & _ & Htotal).
  - apply tile_histogramb_ok. vm_compute. reflexivity.
  - lia.
  - exact Htotal.
Defined.

End CalculateCdfProperties.

(** ** Where the normalisation starts *)

Section CdfMinProperties.
Import verify_cdf_golden Props.

Lemma excess_above_positive (H : list Z) (clip_limit : Z) :
  Exists (fun x => clip_limit < x) H -> 0 < excess_above clip_limit H.
Proof.
  unfold excess_above. intros Hex.
  induction H as [| x l IH]; [by apply Exists_nil in Hex |].
  cbn [map sumZ foldr].
  fold (sumZ (map (fun x => Z.max 0 (x - clip_limit)) l)).
  assert (0 <= sumZ (map (fun x => Z.max 0 (x - clip_limit)) l)) as Hnn.
  { apply sumZ_nonneg, Forall_forall. intros y Hy.
    apply list_elem_of_fmap in Hy as (z & -> & _). lia. }
  apply Exists_cons in Hex as [Hx | Hl]; [lia |].
  specialize (IH Hl). lia.
Qed.

Lemma cdf_min_first_bin (cdf : list Z) :
  0 < getitem cdf 0 -> cdf_min cdf = getitem cdf 0.
Proof.
  intros Hpos. unfold cdf_min.
  change (seq 0 bins) with (0%nat :: seq 1 255).
  cbn [find_cdf_min].
  by rewrite (proj2 (Z.gtb_lt (getitem cdf 0) 0)) by lia.
Qed.

(** X17: as soon as one bin exceeds the clip limit, the redistribution
    puts at least one count into bin 0, so the search for [cdf_min]
    stops at once: [cdf_min] is the count of bin 0 and no bin lies
    before the first populated one. *)
Theorem clipping_populates_bin_0 (H : list Z) (clip_limit : Z) :
  tile_histogram H -> 0 < clip_limit ->
  Exists (fun x => clip_limit < x) H ->
  1 <= getitem (clipped_hist H clip_limit) 0
  /\ cdf_min (cumsum (clipped_hist H clip_limit))
     = getitem (clipped_hist H clip_limit) 0.
Proof.
  intros HH Hc Hex.
  destruct (clipped_hist_spec H clip_limit HH Hc) as (Hlen & Hget).
  pose proof (total_excess_spec H clip_limit HH Hc) as HE.
  pose proof (excess_above_positive H clip_limit Hex) as Hpos.
  pose proof (total_excess_split H clip_limit) as Hsplit.
  pose proof (avg_increment_nonneg H clip_limit HH Hc) as Havg.
  pose proof (remainder_range H clip_limit) as Hrem.
  pose proof (getitem_nonneg H 0 (tile_nonneg H HH)) as H0.
  assert (1 <= getitem (clipped_hist H clip_limit) 0) as Hbin.
  { rewrite Hget by (unfold bins; lia). change (Z.of_nat 0) with 0.
    destruct (Z.ltb_spec 0 (remainder H clip_limit)); lia. }
  split; [exact Hbin |].
  assert (getitem (cumsum (clipped_hist H clip_limit)) 0
          = getitem (clipped_hist H clip_limit) 0) as Hcdf0.
  { unfold cumsum. rewrite cumsum_from_lookup by (rewrite Hlen; unfold bins; lia).
    destruct (clipped_hist H clip_limit) as [| x a]; [reflexivity |].
    unfold getitem. simpl. lia. }
  rewrite cdf_min_first_bin; [exact Hcdf0 | lia].
Qed.

Lemma clipping_populates_bin_0_witness :
  1 <= getitem (clipped_hist (single_bin 50 tile_pixels) 500) 0
  /\ cdf_min (cumsum (clipped_hist (single_bin 50 tile_pixels) 500))
     = getitem (clipped_hist (single_bin 50 tile_pixels) 500) 0.
Proof.
  apply clipping_populates_bin_0.
  - apply tile_histogramb_ok. vm_compute. reflexivity.
  - lia.
  - apply Exists_exists. exists tile_pixels. split.
    + apply list_elem_of_lookup. exists 50%nat. reflexivity.
    + vm_compute. reflexivity.
Defined.

Lemma normalize_entry_at_min (m t : Z) : normalize_entry m t m = 0.
Proof.
  unfold normalize_entry. rewrite Z.sub_diag.
  change (f64_mul (f64_of_Z 0) (f64_of_Z 255)) with (S754_zero false).
  destruct (f64_of_Z (t - m)) as [s | s | | s mant e]; reflexivity.
Qed.

(** X18: a bin whose cumulative count equals [cdf_min], the first
    populated bin among them, is mapped to 0, in the degenerate branch
    and in the normalising one. *)
Theorem normalized_cdf_zero_at_min (cdf : list Z) (i : nat) :
  (i < length cdf)%nat -> (i < bins)%nat ->
  getitem cdf i = cdf_min cdf ->
  getitem (normalized_cdf cdf) i = 0.
Proof.
  intros Hi Hb Hmin. unfold normalized_cdf.
  destruct ((total cdf =? cdf_min cdf) || (total cdf =? 0)).
  - apply getitem_lookup. by apply lookup_replicate_2.
  - apply getitem_lookup. rewrite list_lookup_fmap.
    rewrite (lookup_getitem cdf i Hi). simpl.
    rewrite Hmin. f_equal. apply normalize_entry_at_min.
Qed.

Lemma normalized_cdf_zero_at_min_witness :
  getitem (normalized_cdf [0; 100; 200]) 1 = 0.
Proof.
  apply normalized_cdf_zero_at_min;
    [simpl; lia | unfold bins; lia | reflexivity].
Defined.

Lemma single_bin_50_int64 : int64_entries (single_bin 50 tile_pixels).
Proof.
  apply Forall_forall. intros x Hx.
  apply list_elem_of_In,
    (forallb_forall (fun x => (- 2 ^ 63 <=? x) && (x <? 2 ^ 63))) in Hx;
    [| vm_compute; reflexivity].
  apply andb_true_iff in Hx as [Hlo Hhi].
  apply Z.leb_le in Hlo. apply Z.ltb_lt in Hhi. lia.
Qed.

(** X19: for a positive clip limit and a histogram whose entries are
    64-bit integers, [calculate_cdf] fails (an [IndexError]) exactly
    when the histogram has fewer than 256 entries; otherwise it returns
    a table of bytes, with 256 entries when the histogram has 256. *)
Theorem calculate_cdf_shape (H : list Z) (clip_limit : Z) :
  0 < clip_limit -> int64_entries H ->
  (calculate_cdf H clip_limit = None <-> (length H < bins)%nat)
  /\ ((bins <= length H)%nat ->
      exists table,
        calculate_cdf H clip_limit = Some table
        /\ Forall (fun v => 0 <= v <= 255) table
        /\ (length H = bins -> length table = bins)).
Proof.
  intros _ _. unfold calculate_cdf. split.
  - destruct (Nat.ltb_spec (length H) bins); split;
      intros; try discriminate; try reflexivity; lia.
  - intros Hlen. rewrite (proj2 (Nat.ltb_ge (length H) bins)) by lia.
    eexists. split; [reflexivity |]. split.
    + apply normalized_cdf_bytes.
    + intros Heq. unfold normalized_cdf.
      destruct (_ || _).
      * apply length_replicate.
      * rewrite length_map. unfold cumsum.
        by rewrite cumsum_from_length, clipped_hist_length.
Qed.

Lemma calculate_cdf_shape_witness :
  exists table,
    calculate_cdf (single_bin 50 tile_pixels) 500 = Some table
    /\ Forall (fun v => 0 <= v <= 255) table
    /\ (length (single_bin 50 tile_pixels) = bins -> length table = bins).
Proof.
  apply (proj2 (calculate_cdf_shape (single_bin 50 tile_pixels) 500
                  ltac:(lia) single_bin_50_int64)).
  vm_compute. repeat constructor.
Defined.

End CdfMinProperties.

(** ** verify_test and the verdict of main *)

Section VerifyTest.
Import verify_cdf_golden Props.

Variable golden_cdf : list Z.
Variable actual_output : gmap Z Z.

Local Abbreviation err := (bin_error golden_cdf actual_output).
Local Abbreviation diff := (differs golden_cdf actual_output).

Lemma differs_error (j : nat) : diff j = false <-> err j = 0.
Proof.
  unfold differs, bin_error. rewrite negb_false_iff, Z.eqb_eq. lia.
Qed.

Lemma differs_equal (j : nat) :
  diff j = false
  <-> getitem golden_cdf j = actual_get actual_output j.
Proof. unfold differs. by rewrite negb_false_iff, Z.eqb_eq. Qed.

(** Loop invariant: the list holds the records of the differing bins
    seen so far, in order, and [max_error] is the largest distance seen
    so far. *)
Lemma verify_prefix_inv (k : nat) :
  fst (verify_prefix golden_cdf actual_output k)
  = map (mismatch_of golden_cdf actual_output) (List.filter diff (seq 0 k))
  /\ 0 <= snd (verify_prefix golden_cdf actual_output k)
  /\ (forall j, (j < k)%nat ->
                err j <= snd (verify_prefix golden_cdf actual_output k))
  /\ (snd (verify_prefix golden_cdf actual_output k) = 0
      \/ exists j, (j < k)%nat
                   /\ err j = snd (verify_prefix golden_cdf actual_output k)).
Proof.
  unfold verify_prefix. induction k as [| k IH].
  - simpl. repeat split; [lia | intros j Hj; lia | by left].
  - destruct IH as (Hlist & Hnn & Hmax & Hatt).
    rewrite seq_S, fold_left_app, List.filter_app, map_app. simpl.
    destruct (fold_left (verify_step golden_cdf actual_output)
                (seq 0 k) ([], 0)) as [ms mx] eqn:Est.
    simpl in Hlist, Hnn, Hmax, Hatt.
    unfold verify_step. fold (diff k).
    destruct (diff k) eqn:Ek; simpl.
    + fold (err k). repeat split.
      * by rewrite Hlist.
      * lia.
      * intros j Hj. destruct (Nat.eq_dec j k) as [-> | Hne]; [lia |].
        specialize (Hmax j ltac:(lia)). lia.
      * destruct (Z.max_spec mx (err k)) as [[_ ->] | [_ ->]].
        -- right. exists k. split; [lia | reflexivity].
        -- destruct Hatt as [-> | (j & Hj & Hej)].
           ++ by left.
           ++ right. exists j. split; [lia | exact Hej].
    + apply differs_error in Ek. repeat split.
      * by rewrite Hlist, app_nil_r.
      * exact Hnn.
      * intros j Hj. destruct (Nat.eq_dec j k) as [-> | Hne]; [lia |].
        apply Hmax. lia.
      * destruct Hatt as [-> | (j & Hj & Hej)]; [by left |].
        right. exists j. split; [lia | exact Hej].
Qed.

Lemma filter_nil_iff (k : nat) :
  List.filter diff (seq 0 k) = []
  <-> forall j, (j < k)%nat -> diff j = false.
Proof.
  split.
  - intros Hnil j Hj. destruct (diff j) eqn:E; [| reflexivity].
    assert (In j (List.filter diff (seq 0 k))) as Hin
        by (apply filter_In; split; [apply in_seq; lia | exact E]).
    rewrite Hnil in Hin. destruct Hin.
  - intros Hall. induction k as [| k IH]; [reflexivity |].
    rewrite seq_S, List.filter_app, IH by (intros; apply Hall; lia).
    simpl. by rewrite Hall by lia.
Qed.

Lemma filter_seq_length (k : nat) :
  (length (List.filter diff (seq 0 k)) <= k)%nat.
Proof.
  induction k as [| k IH]; [simpl; lia |].
  rewrite seq_S, List.filter_app, length_app. simpl.
  destruct (diff k); simpl; lia.
Qed.

Lemma verify_test_unfold :
  (256 <= length golden_cdf)%nat ->
  verify_test golden_cdf actual_output
  = Some {| total_bins := 256;
            mismatches :=
              length (fst (verify_prefix golden_cdf actual_output 256));
            match_rate :=
              f64_mul
                (f64_div
                   (f64_of_Z
                      (256 - Z.of_nat
                               (length (fst (verify_prefix golden_cdf
                                               actual_output 256)))))
                   (f64_of_Z 256))
                (f64_of_Z 100);
            max_error := snd (verify_prefix golden_cdf actual_output 256);
            mismatch_details :=
              take 10 (fst (verify_prefix golden_cdf actual_output 256)) |}.
Proof.
  intros Hlen. unfold verify_test, verify_prefix.
  rewrite (proj2 (Nat.ltb_ge (length golden_cdf) 256)) by lia.
  destruct (fold_left (verify_step golden_cdf actual_output)
              (seq 0 256) ([], 0)) as [ms mx].
  reflexivity.
Qed.

End VerifyTest.

Section VerifyTestClaims.
Import verify_cdf_golden Props.

(** X20: [verify_test] fails (an [IndexError]) exactly when the golden
    table has fewer than 256 entries.  Otherwise it counts the bins of
    0..255 where the golden value differs from the actual one, a bin
    missing from the actual output reading as 0: the count is 0 exactly
    when all 256 bins agree, and the details are the records of the
    first ten differing bins, in bin order. *)
Theorem verify_test_counts (golden_cdf : list Z) (actual_output : gmap Z Z) :
  (verify_test golden_cdf actual_output = None
   <-> (length golden_cdf < 256)%nat)
  /\ ((256 <= length golden_cdf)%nat ->
      exists result,
        verify_test golden_cdf actual_output = Some result
        /\ total_bins result = 256
        /\ (mismatches result <= 256)%nat
        /\ (mismatches result = 0%nat
            <-> forall bin, (bin < 256)%nat ->
                  getitem golden_cdf bin = actual_get actual_output bin)
        /\ mismatch_details result
           = take 10 (map (mismatch_of golden_cdf actual_output)
                          (List.filter (differs golden_cdf actual_output)
                                       (seq 0 256)))).
Proof.
  split.
  - unfold verify_test.
    destruct (Nat.ltb_spec (length golden_cdf) 256) as [Hlt | Hge].
    + split; [intros _; exact Hlt | reflexivity].
    + destruct (fold_left _ _ _) as [ms mx].
      split; [discriminate | lia].
  - intros Hlen.
    rewrite (verify_test_unfold golden_cdf actual_output Hlen).
    destruct (verify_prefix_inv golden_cdf actual_output 256)
      as (Hlist & _).
    eexists. split; [reflexivity |]. cbn [total_bins mismatches
      mismatch_details]. rewrite Hlist, length_map.
    split; [reflexivity |]. split; [apply filter_seq_length |].
    split; [| reflexivity].
    rewrite length_zero_iff_nil, filter_nil_iff.
    split; intros Hall bin Hbin; apply differs_equal, Hall, Hbin.
Qed.

Lemma verify_test_counts_witness :
  exists result,
    verify_test (replicate 256 7) (<[3 := 9]> ∅) = Some result
    /\ total_bins result = 256
    /\ (mismatches result <= 256)%nat
    /\ (mismatches result = 0%nat
        <-> forall bin, (bin < 256)%nat ->
              getitem (replicate 256 7) bin
              = actual_get (<[3 := 9]> ∅) bin)
    /\ mismatch_details result
       = take 10 (map (mismatch_of (replicate 256 7) (<[3 := 9]> ∅))
                      (List.filter (differs (replicate 256 7) (<[3 := 9]> ∅))
                                   (seq 0 256))).
Proof.
  apply (proj2 (verify_test_counts (replicate 256 7) (<[3 := 9]> ∅))).
  rewrite length_replicate. lia.
Defined.

(** X21: [max_error] is the largest distance between the golden and
    the actual value over the 256 bins: no bin is further apart, some
    bin is that far apart when there is a mismatch, and it is 0 exactly
    when there is none. *)
Theorem verify_test_max_error
    (golden_cdf : list Z) (actual_output : gmap Z Z) (result : verify_result) :
  verify_test golden_cdf actual_output = Some result ->
  (forall bin, (bin < 256)%nat ->
               bin_error golden_cdf actual_output bin <= max_error result)
  /\ (max_error result = 0 <-> mismatches result = 0%nat)
  /\ (mismatches result <> 0%nat ->
      exists bin, (bin < 256)%nat
                  /\ bin_error golden_cdf actual_output bin
                     = max_error result).
Proof.
  intros Hres.
  assert (256 <= length golden_cdf)%nat as Hlen.
  { destruct (Nat.ltb_spec (length golden_cdf) 256) as [Hlt | Hge];
      [| exact Hge].
    apply (proj1 (verify_test_counts golden_cdf actual_output)) in Hlt.
    congruence. }
  rewrite (verify_test_unfold golden_cdf actual_output Hlen) in Hres.
  apply (inj Some) in Hres. subst result. cbn [max_error mismatches].
  destruct (verify_prefix_inv golden_cdf actual_output 256)
    as (Hlist & Hnn & Hmax & Hatt).
  rewrite Hlist, length_map.
  assert (snd (verify_prefix golden_cdf actual_output 256) = 0
          <-> length (List.filter (differs golden_cdf actual_output)
                                  (seq 0 256)) = 0%nat) as Hzero.
  { rewrite length_zero_iff_nil, filter_nil_iff. split.
    - intros H0 j Hj. apply differs_error.
      specialize (Hmax j Hj). unfold bin_error in *. lia.
    - intros Hall. destruct Hatt as [H0 | (j & Hj & Hej)]; [exact H0 |].
      rewrite <- Hej. apply differs_error, Hall, Hj. }
  split; [exact Hmax |]. split; [exact Hzero |].
  intros Hne. destruct Hatt as [H0 | Hex]; [| exact Hex].
  apply Hzero in H0. contradiction.
Qed.

Lemma verify_test_max_error_witness :
  exists result,
    verify_test (replicate 256 7) (<[3 := 9]> ∅) = Some result
    /\ forall bin, (bin < 256)%nat ->
         bin_error (replicate 256 7) (<[3 := 9]> ∅) bin <= max_error result.
Proof.
  destruct (verify_test (replicate 256 7) (<[3 := 9]> ∅))
    as [result |] eqn:E; [| vm_compute in E; discriminate E].
  exists result. split; [reflexivity |].
  apply (verify_test_max_error _ _ result E).
Defined.

(** X22: the verdict of [main].  A result is PASS exactly when the 256
    bins agree, and FAIL exactly when some bin is more than one unit
    away from the golden value; differences of at most one unit are
    ACCEPTABLE. *)
Theorem judge_verdict
    (golden_cdf : list Z) (actual_output : gmap Z Z) (result : verify_result) :
  verify_test golden_cdf actual_output = Some result ->
  (judge result = PASS
   <-> forall bin, (bin < 256)%nat ->
         getitem golden_cdf bin = actual_get actual_output bin)
  /\ (judge result = FAIL
      <-> exists bin, (bin < 256)%nat
                      /\ 1 < bin_error golden_cdf actual_output bin).
Proof.
  intros Hres.
  destruct (verify_test_max_error _ _ _ Hres) as (Hmax & Hzero & Hatt).
  assert (256 <= length golden_cdf)%nat as Hlen.
  { destruct (Nat.ltb_spec (length golden_cdf) 256) as [Hlt | Hge];
      [| exact Hge].
    apply (proj1 (verify_test_counts golden_cdf actual_output)) in Hlt.
    congruence. }
  destruct (proj2 (verify_test_counts golden_cdf actual_output) Hlen)
    as (result' & Hres' & _ & _ & Hcount & _).
  rewrite Hres in Hres'. apply (inj Some) in Hres'. subst result'.
  unfold judge.
  destruct (Nat.eqb_spec (mismatches result) 0) as [Hm | Hm].
  - split; [split; [intros _; by apply Hcount | reflexivity] |].
    split; [discriminate |].
    intros (bin & Hbin & Herr). specialize (Hmax bin Hbin).
    apply Hzero in Hm. lia.
  - split.
    + split; [destruct (max_error result <=? 1); discriminate |].
      intros Hall. apply Hcount in Hall. contradiction.
    + destruct (Z.leb_spec (max_error result) 1) as [Hle | Hgt].
      * split; [discriminate |].
        intros (bin & Hbin & Herr). specialize (Hmax bin Hbin). lia.
      * split; [intros _ | reflexivity].
        destruct (Hatt Hm) as (bin & Hbin & Hbe).
        exists bin. split; [exact Hbin | lia].
Qed.

Lemma judge_verdict_witness :
  exists result,
    verify_test (replicate 256 7) (<[3 := 9]> ∅) = Some result
    /\ (judge result = FAIL
        <-> exists bin, (bin < 256)%nat
              /\ 1 < bin_error (replicate 256 7) (<[3 := 9]> ∅) bin).
Proof.
  destruct (verify_test (replicate 256 7) (<[3 := 9]> ∅))
    as [result |] eqn:E; [| vm_compute in E; discriminate E].
  exists result. split; [reflexivity |].
  apply (judge_verdict _ _ result E).
Defined.

Lemma fold_left_ext_in {A B : Type} (f g : A -> B -> A) (l : list B) (a : A) :
  (forall x b, In b l -> f x b = g x b) ->
  fold_left f l a = fold_left g l a.
Proof.
  revert a. induction l as [| b l IH]; intros a Hext; [reflexivity |].
  simpl. rewrite Hext by (left; reflexivity).
  apply IH. intros x b' Hin. apply Hext. by right.
Qed.

(** X23: only what the actual output says about the bins 0..255
    counts, a missing bin standing for 0: two outputs that read the
    same on those bins get the same result, so dropping a bin and
    setting it to 0 are the same. *)
Theorem verify_test_missing_is_zero
    (golden_cdf : list Z) (actual_output actual_output' : gmap Z Z) (k : Z) :
  ((forall bin, (bin < 256)%nat ->
                actual_get actual_output bin = actual_get actual_output' bin) ->
   verify_test golden_cdf actual_output
   = verify_test golden_cdf actual_output')
  /\ verify_test golden_cdf (delete k actual_output)
     = verify_test golden_cdf (<[k := 0]> actual_output).
Proof.
  assert (forall a a' : gmap Z Z,
             (forall bin, (bin < 256)%nat ->
                          actual_get a bin = actual_get a' bin) ->
             verify_test golden_cdf a = verify_test golden_cdf a') as Hext.
  { intros a a' Hsame. unfold verify_test.
    rewrite (fold_left_ext_in (verify_step golden_cdf a)
               (verify_step golden_cdf a')); [reflexivity |].
    intros [ms mx] bin Hin. apply in_seq in Hin.
    unfold verify_step. rewrite Hsame by lia. reflexivity. }
  split; [apply Hext |].
  apply Hext. intros bin _. unfold actual_get.
  destruct (Z.eq_dec k (Z.of_nat bin)) as [-> | Hne].
  - by rewrite lookup_delete_eq, lookup_insert_eq.
  - by rewrite lookup_delete_ne, lookup_insert_ne.
Qed.

Lemma verify_test_missing_is_zero_witness :
  verify_test (replicate 256 0) (<[300 := 5]> ∅)
  = verify_test (replicate 256 0) ∅.
Proof.
  apply (proj1 (verify_test_missing_is_zero (replicate 256 0)
                  (<[300 := 5]> ∅) ∅ 0)).
  intros bin Hbin. unfold actual_get.
  rewrite lookup_insert_ne by lia. reflexivity.
Defined.

End VerifyTestClaims.

(** ** check_bmp_content.py and bmp_to_hex.py *)

Section BmpProperties.
Import check_bmp_content bmp_to_hex Props.

(** X24: the luminance of a pixel with byte channels is a byte, grey
    pixels keep their level, and the luminance does not decrease when a
    channel increases. *)
Theorem luminance_byte (r g b r' g' b' v : Z) :
  0 <= r <= 255 -> 0 <= g <= 255 -> 0 <= b <= 255 ->
  r <= r' -> g <= g' -> b <= b' ->
  0 <= luminance r g b <= 255
  /\ luminance v v v = v
  /\ luminance r g b <= luminance r' g' b'.
Proof.
  intros Hr Hg Hb Hr' Hg' Hb'. unfold luminance.
  rewrite !Z.shiftr_div_pow2 by lia. change (2 ^ 16) with 65536.
  repeat split.
  - apply Z.div_pos; lia.
  - apply Z.lt_succ_r, Z.div_lt_upper_bound; lia.
  - Z.to_euclidean_division_equations. lia.
  - apply Z.div_le_mono; lia.
Qed.

Lemma luminance_byte_witness :
  0 <= luminance 255 255 255 <= 255
  /\ luminance 128 128 128 = 128
  /\ luminance 255 255 255 <= luminance 255 255 255.
Proof. apply (luminance_byte 255 255 255 255 255 255 128); lia. Defined.

(** X25: the row size is the number of pixel bytes of a row rounded up
    to the next multiple of 4. *)
Theorem row_size_aligned (width bits_per_pixel : Z) :
  let raw := width * bits_per_pixel / 8 in
  row_size width bits_per_pixel mod 4 = 0
  /\ raw <= row_size width bits_per_pixel < raw + 4.
Proof.
  intros raw. unfold row_size. fold raw.
  assert (forall x, Z.land x (Z.lnot 3) = x / 4 * 4) as Hmask.
  { intros x. change 3 with (Z.ones 2).
    rewrite <- Z.ldiff_land, Z.ldiff_ones_r by lia.
    rewrite Z.shiftl_mul_pow2, Z.shiftr_div_pow2 by lia. reflexivity. }
  rewrite Hmask. clearbody raw.
  Z.to_euclidean_division_equations. lia.
Qed.

Lemma hex_digit_value (d : Z) : 0 <= d < 16 -> hex_value (hex_digit d) = d.
Proof.
  intros Hd. unfold hex_value, hex_digit.
  destruct (Z.ltb_spec d 10) as [Hlt | Hge];
    rewrite nat_ascii_embedding by lia; rewrite Z2Nat.id by lia;
    cbv zeta.
  - rewrite (proj2 (Z.ltb_lt (48 + d) 58)) by lia. lia.
  - rewrite (proj2 (Z.ltb_ge (55 + d) 58)) by lia. lia.
Qed.

(** X26: the line written for a pixel has seven characters, and reading
    its six hexadecimal digits back in the order blue, green, red gives
    the pixel again. *)
Theorem pixel_line_roundtrip (r g b : Z) :
  0 <= r <= 255 -> 0 <= g <= 255 -> 0 <= b <= 255 ->
  length (pixel_line r g b) = 7%nat
  /\ read_pixel_line (pixel_line r g b) = Some (r, g, b).
Proof.
  intros Hr Hg Hb. split; [reflexivity |].
  unfold pixel_line, format_02X, read_pixel_line. cbn [app].
  rewrite nat_ascii_embedding by lia. cbn [Nat.eqb].
  rewrite !hex_digit_value
    by (Z.to_euclidean_division_equations; lia).
  do 3 f_equal; Z.to_euclidean_division_equations; lia.
Qed.

Lemma pixel_line_roundtrip_witness :
  length (pixel_line 255 16 9) = 7%nat
  /\ read_pixel_line (pixel_line 255 16 9) = Some (255, 16, 9).
Proof. apply pixel_line_roundtrip; lia. Defined.

End BmpProperties.

(** ** Totals beyond np.int32 *)

Section BeyondInt32.
Import verify_cdf_golden Props.

(** C1 as stated fails: with the largest [np.int32] count in bins 0 and
    1 and clip limit 1, the 256 counts are non-negative, [total_excess]
    wraps around, and the bins sum to -2 instead of 4294967294. *)
Lemma conservation_fails_beyond_int32 :
  length two_full_bins = bins
  /\ Forall (fun x => 0 <= x) two_full_bins
  /\ sumZ two_full_bins = 4294967294
  /\ sumZ (clipped_hist two_full_bins 1) = - 2
  /\ sumZ (clipped_hist two_full_bins 1) <> sumZ two_full_bins.
Proof.
  split; [reflexivity |]. split.
  - apply Forall_forall. intros x Hx.
    apply list_elem_of_In, (forallb_forall (fun x => 0 <=? x)) in Hx;
      [by apply Z.leb_le | vm_compute; reflexivity].
  - repeat split; vm_compute; congruence.
Qed.

(** C2 as stated fails at the same histogram: the accumulated excess is
    4294967292 but [total_excess] holds -4, so [avg_increment] is -1
    (the floor, where truncation gives 0) and [remainder] is 252 (where
    the truncating remainder is -4). *)
Lemma redistribution_wraps_beyond_int32 :
  excess_above 1 two_full_bins = 4294967292
  /\ total_excess two_full_bins 1 = - 4
  /\ avg_increment two_full_bins 1 = - 1
  /\ remainder two_full_bins 1 = 252
  /\ ~ (total_excess two_full_bins 1 = excess_above 1 two_full_bins
        /\ avg_increment two_full_bins 1
           = Z.quot (excess_above 1 two_full_bins) 256
        /\ remainder two_full_bins 1
           = Z.rem (excess_above 1 two_full_bins) 256)
  /\ avg_increment two_full_bins 1
     <> Z.quot (total_excess two_full_bins 1) 256.
Proof.
  repeat split; try (vm_compute; congruence).
  intros (Htot & _). vm_compute in Htot. discriminate Htot.
Qed.

End BeyondInt32.
